(** * Call-recorder admin console: filter state and role visibility

    A shallow embedding of the client-side logic of the admin console:

    - [Sidebar]: the role filter of the navigation items
      (components/layout/Sidebar.tsx);
    - [Routes]: the route guards of App.tsx, in both variants present in
      the repository;
    - [Pages]: the per-page action flags ([canEdit], [canManageDevices],
      [canManageCallLogs]);
    - [AdminsPage]: the delete handler of pages/Admins.tsx;
    - [JsDate]: the local calendar arithmetic behind [Date];
    - [CallLogs]: the filter / pagination / sort state of pages/CallLogs.tsx
      and the recording visibility helper;
    - [Scope], [Samples]: the notions the properties are stated with, and
      concrete sessions.

    JavaScript objects used as filter sets are finite maps from property
    names to JavaScript values; a property can be absent, or present with
    the value [undefined], and object spread keeps that difference. *)

From Stdlib Require Import ZArith Ascii.
From stdpp Require Import base decidable option list strings gmap fin_maps pretty.

Local Open Scope string_scope.
Local Open Scope Z_scope.

(* ===================================================================== *)
(** ** JavaScript values and objects                                      *)
(* ===================================================================== *)

Module Js.

(** The values that occur in the filter objects: [undefined], numbers
    (integers, and [NaN] as produced by [parseInt]) and strings. *)
Inductive JsVal : Type :=
| JUndef
| JNaN
| JNum (n : Z)
| JStr (s : string).

#[global] Instance JsVal_eq_dec : EqDecision JsVal.
Proof. solve_decision. Defined.

(** ToBoolean. *)
Definition truthy (v : JsVal) : bool :=
  match v with
  | JUndef => false
  | JNaN => false
  | JNum n => negb (n =? 0)
  | JStr s => negb (String.eqb s "")
  end.

(** [a || b] *)
Definition or_else (a b : JsVal) : JsVal := if truthy a then a else b.

(** [a === b] on these values: [NaN] is not equal to itself. *)
Definition strict_eq (a b : JsVal) : bool :=
  match a, b with
  | JUndef, JUndef => true
  | JNum x, JNum y => x =? y
  | JStr x, JStr y => String.eqb x y
  | _, _ => false
  end.

(** [v - 1] and [v + 1], as applied to [page].  Subtraction converts to a
    number: [undefined] gives [NaN], and so does a string here ([page] is
    typed as a number, so strings do not occur); [+] appends to a string. *)
Definition minus_one (v : JsVal) : JsVal :=
  match v with
  | JNum n => JNum (n - 1)
  | _ => JNaN
  end.

Definition plus_one (v : JsVal) : JsVal :=
  match v with
  | JNum n => JNum (n + 1)
  | JStr s => JStr (String.append s "1")
  | _ => JNaN
  end.

(** An object literal / record of optional properties. *)
Abbreviation JsObj := (gmap string JsVal).

(** Property read [o.k]: absent properties read as [undefined]. *)
Definition get (o : JsObj) (k : string) : JsVal := default JUndef (o !! k).

(** [{ ...a, ...b }]: own properties of [b] win, also when their value is
    [undefined]. *)
Definition spread (a b : JsObj) : JsObj := b ∪ a.

(** [arr.includes(v)] for an array of numbers. *)
Definition includes (arr : list Z) (v : JsVal) : bool :=
  match v with
  | JNum n => bool_decide (n ∈ arr)
  | _ => false
  end.

(** [arr[0]] *)
Definition first (arr : list Z) : JsVal :=
  match arr with
  | x :: _ => JNum x
  | [] => JUndef
  end.

(** [Number.MAX_SAFE_INTEGER].  JavaScript numbers are doubles; on whole
    numbers up to this bound, floored division, remainder and printing are
    exact, which is where the integer arithmetic below stands for them. *)
Definition MAX_SAFE_INTEGER : Z := 2 ^ 53 - 1.

End Js.
Import Js.

(* ===================================================================== *)
(** ** The authenticated administrator (types/index.ts, store/authStore.ts) *)
(* ===================================================================== *)

Inductive AdminRole : Type := super_admin | manager | trainee.

#[global] Instance AdminRole_eq_dec : EqDecision AdminRole.
Proof. solve_decision. Defined.

(** [branch_id?: number | null]; [assigned_user_ids] is optional too. *)
Record Admin : Type := mkAdmin {
  id : Z;
  admin_role : AdminRole;
  branch_id : option Z;
  assigned_user_ids : option (list Z);
}.

Record AuthState : Type := mkAuth {
  admin : option Admin;
  isAuthenticated : bool;
}.

(** [admin?.admin_role === r] *)
Definition role_is (adm : option Admin) (r : AdminRole) : bool :=
  match adm with
  | Some a => bool_decide (admin_role a = r)
  | None => false
  end.

(** Truthiness of [admin.branch_id]: set and non-zero. *)
Definition branch_truthy (a : Admin) : option Z :=
  match branch_id a with
  | Some b => if b =? 0 then None else Some b
  | None => None
  end.

(* ===================================================================== *)
(** ** Sidebar: navigation items filtered by role                         *)
(* ===================================================================== *)

Module Sidebar.

(** A navigation entry; [allowedRoles] is an optional property. *)
Record NavItem : Type := mkNavItem {
  to : string;
  label : string;
  allowedRoles : option (list AdminRole);
}.

#[global] Instance NavItem_eq_dec : EqDecision NavItem.
Proof. solve_decision. Defined.

Definition allNavItems : list NavItem :=
  [ mkNavItem "/dashboard" "Dashboard" None;
    mkNavItem "/call-logs" "Call Logs" None;
    mkNavItem "/devices" "Devices" (Some [super_admin; manager]) ].

Definition allAdminNavItems : list NavItem :=
  [ mkNavItem "/branches" "Branches" (Some [super_admin]);
    mkNavItem "/users" "App Users" None;
    mkNavItem "/admins" "Admins" (Some [super_admin]);
    mkNavItem "/login-activities" "Login Activity" (Some [super_admin; manager]) ].

(** The callback handed to [filter]: an item is tested against its list
    only when it has one and the session has a role; every other item is
    shown. *)
Definition showItem (role : option AdminRole) (item : NavItem) : bool :=
  match allowedRoles item, role with
  | Some roles, Some r => bool_decide (r ∈ roles)
  | _, _ => true
  end.

Definition navItems (adm : option Admin) : list NavItem :=
  List.filter (showItem (admin_role <$> adm)) allNavItems.

Definition adminNavItems (adm : option Admin) : list NavItem :=
  List.filter (showItem (admin_role <$> adm)) allAdminNavItems.

End Sidebar.

(* ===================================================================== *)
(** ** Routes: the guards of App.tsx                                      *)
(* ===================================================================== *)

Module Routes.

Inductive Page : Type :=
| Login | Dashboard | CallLogsPage | Devices | Branches | Users | Admins
| LoginActivities.

#[global] Instance Page_eq_dec : EqDecision Page.
Proof. solve_decision. Defined.

(** What a guard renders: a redirect, or the page it wraps. *)
Inductive Rendered : Type :=
| Navigate (target : string)
| Children (p : Page).

#[global] Instance Rendered_eq_dec : EqDecision Rendered.
Proof. solve_decision. Defined.

Definition ProtectedRoute (auth : AuthState) (children : Page) : Rendered :=
  if negb (isAuthenticated auth) then Navigate "/login" else Children children.

Definition RoleProtectedRoute (auth : AuthState) (allowedRoles : list AdminRole)
    (children : Page) : Rendered :=
  if negb (isAuthenticated auth) then Navigate "/login"
  else match admin auth with
       | Some a =>
           if negb (bool_decide (admin_role a ∈ allowedRoles))
           then Navigate "/dashboard" else Children children
       | None => Children children
       end.

Definition PublicRoute (auth : AuthState) (children : Page) : Rendered :=
  if isAuthenticated auth then Navigate "/dashboard" else Children children.

(** The paths that have a route of their own. *)
Definition paths : list string :=
  ["/login"; "/dashboard"; "/call-logs"; "/devices"; "/branches"; "/users";
   "/admins"; "/login-activities"].

(** How [<Routes>] compares a route's [path] with the location: the router
    matches without regard to the case of the letters and ignores slashes
    at the end of the pathname (the pattern [/users] is tried as
    [^/users/*$], case-insensitively).  [pathname] is the location's
    pathname as the router has decoded it; the patterns of both tables
    are plain, without parameters, and end in no slash. *)
Definition lower (c : Ascii.ascii) : Ascii.ascii :=
  if (65 <=? Ascii.nat_of_ascii c)%nat && (Ascii.nat_of_ascii c <=? 90)%nat
  then Ascii.ascii_of_nat (Ascii.nat_of_ascii c + 32) else c.

Fixpoint all_slashes (s : string) : bool :=
  match s with
  | EmptyString => true
  | String c rest => Ascii.eqb c "/"%char && all_slashes rest
  end.

Fixpoint matchPath (pattern pathname : string) : bool :=
  match pattern, pathname with
  | EmptyString, rest => all_slashes rest
  | String p pattern', String c pathname' =>
      Ascii.eqb (lower p) (lower c) && matchPath pattern' pathname'
  | String _ _, EmptyString => false
  end.

(** The route table of App.tsx: every page behind [ProtectedRoute]; the
    default route [/] and the catch-all route [*] redirect to the
    dashboard.  No two of the patterns match the same pathname, so the
    order of the tests plays no role. *)
Definition App (auth : AuthState) (pathname : string) : Rendered :=
  if matchPath "/login" pathname then PublicRoute auth Login
  else if matchPath "/dashboard" pathname then ProtectedRoute auth Dashboard
  else if matchPath "/call-logs" pathname then ProtectedRoute auth CallLogsPage
  else if matchPath "/devices" pathname then ProtectedRoute auth Devices
  else if matchPath "/branches" pathname then ProtectedRoute auth Branches
  else if matchPath "/users" pathname then ProtectedRoute auth Users
  else if matchPath "/admins" pathname then ProtectedRoute auth Admins
  else if matchPath "/login-activities" pathname
       then ProtectedRoute auth LoginActivities
  else Navigate "/dashboard".

(** The route table of the lazy-loading variant of App.tsx, which guards
    some pages by role. *)
Definition AppLazy (auth : AuthState) (pathname : string) : Rendered :=
  if matchPath "/login" pathname then PublicRoute auth Login
  else if matchPath "/dashboard" pathname then ProtectedRoute auth Dashboard
  else if matchPath "/call-logs" pathname then ProtectedRoute auth CallLogsPage
  else if matchPath "/devices" pathname
       then RoleProtectedRoute auth [super_admin; manager] Devices
  else if matchPath "/branches" pathname
       then RoleProtectedRoute auth [super_admin] Branches
  else if matchPath "/users" pathname then ProtectedRoute auth Users
  else if matchPath "/admins" pathname
       then RoleProtectedRoute auth [super_admin] Admins
  else if matchPath "/login-activities" pathname
       then RoleProtectedRoute auth [super_admin; manager] LoginActivities
  else Navigate "/dashboard".

End Routes.

(* ===================================================================== *)
(** ** Per-page action flags                                              *)
(* ===================================================================== *)

Module Pages.

(** pages/Users.tsx: [canEdit] gates the create, edit and delete buttons.
    The snapshot holds two versions of this page.  This is the one with
    the search box, where a super_admin and a manager may edit. *)
Definition Users_canEdit (adm : option Admin) : bool :=
  role_is adm super_admin || role_is adm manager.

(** The other version of pages/Users.tsx, with staged filters and paging:
    only a super_admin may edit, and only a super_admin may change the
    branch filter. *)
Definition UsersPaged_canEdit (adm : option Admin) : bool := role_is adm super_admin.
Definition canChangeBranchFilter (adm : option Admin) : bool := role_is adm super_admin.

(** pages/Admins.tsx *)
Definition Admins_canEdit (adm : option Admin) : bool := role_is adm super_admin.

(** pages/Devices.tsx *)
Definition canManageDevices (adm : option Admin) : bool := role_is adm super_admin.

(** pages/CallLogs.tsx: download of recordings and deletion of call logs. *)
Definition canManageCallLogs (adm : option Admin) : bool := role_is adm super_admin.

End Pages.

(* ===================================================================== *)
(** ** Admins page: deleting an administrator                             *)
(* ===================================================================== *)

Module AdminsPage.

(** What the handler does to the outside world, in order. *)
Inductive Effect : Type :=
| ToastError (msg : string)
| Confirm (msg : string)
| DeleteMutate (target : Z).

#[global] Instance Effect_eq_dec : EqDecision Effect.
Proof. solve_decision. Defined.

(** [handleDelete(id)]; [confirmed] is the answer of [window.confirm]. *)
Definition handleDelete (adm : option Admin) (confirmed : bool) (target : Z)
    : list Effect :=
  if bool_decide (id <$> adm = Some target)
  then [ToastError "You cannot delete your own account"]
  else if confirmed
       then [Confirm "Are you sure you want to delete this admin?"; DeleteMutate target]
       else [Confirm "Are you sure you want to delete this admin?"].

(** The guard around the edit and delete buttons of an admin card:
    [canEdit && adminItem.id !== admin?.id]. *)
Definition deleteButtonShown (adm : option Admin) (itemId : Z) : bool :=
  Pages.Admins_canEdit adm && negb (bool_decide (Some itemId = id <$> adm)).

End AdminsPage.

(* ===================================================================== *)
(** ** Local calendar dates, as [Date] is used by the call-log page       *)
(* ===================================================================== *)

Module JsDate.

(** A [Date] at local midnight is identified with its day number, counted
    from 1970-01-01 in the proleptic Gregorian calendar; months are 1..12
    in [days_from_civil] and [civil_from_days] and 0..11 in the accessors,
    as in JavaScript. *)
Definition days_from_civil (y m d : Z) : Z :=
  let y' := if m <=? 2 then y - 1 else y in
  let era := y' / 400 in
  let yoe := y' - era * 400 in
  let mp := if 2 <? m then m - 3 else m + 9 in
  let doy := (153 * mp + 2) / 5 + d - 1 in
  let doe := yoe * 365 + yoe / 4 - yoe / 100 + doy in
  era * 146097 + doe - 719468.

Definition civil_from_days (z : Z) : Z * Z * Z :=
  let z' := z + 719468 in
  let era := z' / 146097 in
  let doe := z' - era * 146097 in
  let yoe := (doe - doe / 1460 + doe / 36524 - doe / 146096) / 365 in
  let doy := doe - (365 * yoe + yoe / 4 - yoe / 100) in
  let mp := (5 * doy + 2) / 153 in
  let d := doy - (153 * mp + 2) / 5 + 1 in
  let m := if mp <? 10 then mp + 3 else mp - 9 in
  let y := yoe + era * 400 in
  (if m <=? 2 then y + 1 else y, m, d).

Definition getFullYear (t : Z) : Z := (civil_from_days t).1.1.
Definition getMonth (t : Z) : Z := (civil_from_days t).1.2 - 1.
Definition getDate (t : Z) : Z := (civil_from_days t).2.
(** 1970-01-01 was a Thursday; Sunday is 0. *)
Definition getDay (t : Z) : Z := (t + 4) `mod` 7.

(** The day number of a year, month index and day of the month:
    out-of-range months and days roll over into the neighbouring months. *)
Definition MakeDay (year month date : Z) : Z :=
  days_from_civil (year + month / 12) (month `mod` 12 + 1) 1 + (date - 1).

(** [new Date(year, monthIndex, day)]: the constructor reads a year from
    0 to 99 as 1900 + year. *)
Definition make (year monthIndex day : Z) : Z :=
  let yr := if (0 <=? year) && (year <=? 99) then 1900 + year else year in
  MakeDay yr monthIndex day.

(** [date.setDate(day)], returning the changed date; no year is re-read
    here. *)
Definition setDate (t : Z) (day : Z) : Z := MakeDay (getFullYear t) (getMonth t) day.

(** The time values of a [Date] reach 100,000,000 days to either side of
    1970-01-01; beyond that a date is invalid.  [new Date()] is always
    within. *)
Definition maxDay : Z := 100000000.

(** [s.padStart(2, '0')] *)
Definition padStart2 (s : string) : string :=
  match String.length s with
  | O => "00" +:+ s
  | S O => "0" +:+ s
  | _ => s
  end.

End JsDate.

(* ===================================================================== *)
(** ** Call logs page: filters, pagination, sort, recordings              *)
(* ===================================================================== *)

Module CallLogs.

(** The three pieces of component state the handlers read and write. *)
Record State : Type := mkState {
  filters : JsObj;
  pendingFilters : JsObj;
  search : string;
}.

#[global] Instance State_eq_dec : EqDecision State.
Proof. solve_decision. Defined.

(** What the list query last returned, as far as the pager looks at it. *)
Record QueryView : Type := mkQueryView {
  isLoading : bool;
  call_logs_length : option nat;   (* [None]: no data yet *)
  last_page : Z;
}.

Definition formatDate (date : Z) : string :=
  let year := pretty (JsDate.getFullYear date) in
  let month := JsDate.padStart2 (pretty (JsDate.getMonth date + 1)) in
  let day := JsDate.padStart2 (pretty (JsDate.getDate date)) in
  year +:+ "-" +:+ month +:+ "-" +:+ day.

(** [getDateRangeForPeriod(period)]; [now] is the day [new Date()] falls on. *)
Definition getDateRangeForPeriod (now : Z) (period : string) : JsObj :=
  let today := JsDate.make (JsDate.getFullYear now) (JsDate.getMonth now) (JsDate.getDate now) in
  if String.eqb period "daily" then
    <["date_to" := JStr (formatDate today)]>
      (<["date_from" := JStr (formatDate today)]> ∅)
  else if String.eqb period "weekly" then
    let weekStart := JsDate.setDate today (JsDate.getDate today - JsDate.getDay today) in
    <["date_to" := JStr (formatDate today)]>
      (<["date_from" := JStr (formatDate weekStart)]> ∅)
  else if String.eqb period "monthly" then
    let monthStart := JsDate.make (JsDate.getFullYear today) (JsDate.getMonth today) 1 in
    <["date_to" := JStr (formatDate today)]>
      (<["date_from" := JStr (formatDate monthStart)]> ∅)
  else ∅.

(** [assigned_user_ids && assigned_user_ids.length > 0] *)
Definition assigned_nonempty (a : Admin) : option (list Z) :=
  match assigned_user_ids a with
  | Some (x :: l) => Some (x :: l)
  | _ => None
  end.

Definition getInitialFilters (adm : option Admin) : JsObj :=
  let baseFilters : JsObj := <["per_page" := JNum 20]> (<["page" := JNum 1]> ∅) in
  let baseFilters :=
    match adm with
    | Some a =>
        match admin_role a, assigned_nonempty a with
        | trainee, Some ids => <["user_id" := first ids]> baseFilters
        | _, _ => baseFilters
        end
    | None => baseFilters
    end in
  match adm with
  | Some a =>
      match admin_role a, branch_truthy a with
      | manager, Some b => <["branch_id" := JNum b]> baseFilters
      | _, _ => baseFilters
      end
  | None => baseFilters
  end.

Definition availableUserIds (adm : option Admin) : list Z :=
  match adm with
  | Some a =>
      match admin_role a, assigned_user_ids a with
      | super_admin, _ => []
      | trainee, Some ids => ids
      | _, _ => []
      end
  | None => []
  end.

Definition initialState (adm : option Admin) : State :=
  mkState (getInitialFilters adm) ∅ "".

(** [searchParams.get(..)] gives a string or [null]. *)
Definition param_truthy (p : option string) : bool :=
  match p with
  | Some s => negb (String.eqb s "")
  | None => false
  end.

(** The body of the URL effect, run when the URL carries [call_type] or
    [period]: the preset is laid over the initial filters. *)
Definition applyUrlPreset (now : Z) (adm : option Admin)
    (callType period : option string) (s : State) : State :=
  let newFilters := spread (getInitialFilters adm) ∅ in
  let newFilters :=
    match callType with
    | Some c => if param_truthy callType then <["call_type" := JStr c]> newFilters
                else newFilters
    | None => newFilters
    end in
  let newFilters :=
    match period with
    | Some p =>
        if param_truthy period then
          let dateRange := getDateRangeForPeriod now p in
          <["date_to" := get dateRange "date_to"]>
            (<["date_from" := get dateRange "date_from"]> newFilters)
        else newFilters
    | None => newFilters
    end in
  mkState newFilters
    (<["date_to" := get newFilters "date_to"]>
       (<["date_from" := get newFilters "date_from"]>
          (<["call_type" := get newFilters "call_type"]> ∅)))
    (search s).

(** The effect on [searchParams]. *)
Definition urlEffect (now : Z) (adm : option Admin)
    (callType period : option string) (s : State) : State :=
  if param_truthy callType || param_truthy period
  then applyUrlPreset now adm callType period s
  else s.

Definition handleSearch (s : State) : State :=
  mkState (<["page" := JNum 1]> (<["search" := JStr (search s)]> (filters s)))
          (pendingFilters s) (search s).

Definition handleFilterChange (key : string) (value : JsVal) (s : State) : State :=
  mkState (filters s)
          (spread (pendingFilters s) {[ key := or_else value JUndef ]})
          (search s).

(** [applyFilters()]: the new state, and the text of the [alert] shown when
    the handler returns early.  The assignments to [pendingFilters.user_id]
    and [pendingFilters.branch_id] change the state object in place, so the
    pending set of the new state carries them. *)
Definition applyFilters (adm : option Admin) (s : State) : State * option string :=
  let pending := pendingFilters s in
  if (truthy (get pending "time_from") || truthy (get pending "time_to"))
     && negb (truthy (get pending "date_from"))
     && negb (truthy (get pending "date_to"))
  then (s, Some "Please select a date when using time filters")
  else
    let userId := get pending "user_id" in
    let restricted :=
      role_is adm trainee && bool_decide (availableUserIds adm ≠ []) in
    if restricted && truthy userId && negb (includes (availableUserIds adm) userId)
    then (s, Some "You can only view call logs for your assigned users")
    else
      let pending :=
        if restricted && negb (truthy userId)
        then <["user_id" := first (availableUserIds adm)]> pending
        else pending in
      let pending :=
        match adm with
        | Some a =>
            match admin_role a, branch_truthy a with
            | manager, Some b => <["branch_id" := JNum b]> pending
            | _, _ => pending
            end
        | None => pending
        end in
      (mkState (<["page" := JNum 1]> (spread (filters s) pending)) pending (search s),
       None).

Definition clearFilters (adm : option Admin) (s : State) : State :=
  let baseFilters := getInitialFilters adm in
  mkState baseFilters ∅ "".

Definition handleSort (column : string) (s : State) : State :=
  let newSortOrder :=
    if strict_eq (get (filters s) "sort_by") (JStr column)
    then (if strict_eq (get (filters s) "sort_order") (JStr "asc") then "desc" else "asc")
    else "asc" in
  mkState
    (<["page" := JNum 1]>
       (<["sort_order" := JStr newSortOrder]>
          (<["sort_by" := JStr column]> (filters s))))
    (pendingFilters s) (search s).

(** The pager is part of the table branch, and only shown when there is
    more than one page. *)
Definition pagerShown (q : QueryView) : bool :=
  negb (isLoading q)
  && match call_logs_length q with
     | Some n => negb (Nat.eqb n 0)
     | None => false
     end
  && (1 <? last_page q).

(** [disabled] of the two buttons. *)
Definition previousDisabled (s : State) : bool :=
  strict_eq (get (filters s) "page") (JNum 1).

Definition nextDisabled (q : QueryView) (s : State) : bool :=
  strict_eq (get (filters s) "page") (JNum (last_page q)).

(** A click reaches the handler only on a rendered, enabled button. *)
Definition clickPrevious (q : QueryView) (s : State) : State :=
  if pagerShown q && negb (previousDisabled s)
  then mkState
         (<["page" := minus_one (or_else (get (filters s) "page") (JNum 1))]> (filters s))
         (pendingFilters s) (search s)
  else s.

Definition clickNext (q : QueryView) (s : State) : State :=
  if pagerShown q && negb (nextDisabled q s)
  then mkState
         (<["page" := plus_one (or_else (get (filters s) "page") (JNum 1))]> (filters s))
         (pendingFilters s) (search s)
  else s.

(** The query parameters sent for a filter object: the HTTP client leaves
    out properties whose value is [undefined]. *)
Definition queryParams (f : JsObj) : JsObj :=
  filter (λ kv, kv.2 ≠ JUndef) f.

(** *** Everything the user can do on the page *)

Inductive Action : Type :=
| SetSearch (text : string)
| HandleSearch
| HandleFilterChange (key : string) (value : JsVal)
| ApplyFilters
| ClearFilters
| HandleSort (column : string)
| ClickPrevious (q : QueryView)
| ClickNext (q : QueryView)
| UrlChanged (now : Z) (callType period : option string).

(** One event: the next state and the [alert] raised, if any. *)
Definition step (adm : option Admin) (a : Action) (s : State) : State * option string :=
  match a with
  | SetSearch text => (mkState (filters s) (pendingFilters s) text, None)
  | HandleSearch => (handleSearch s, None)
  | HandleFilterChange key value => (handleFilterChange key value s, None)
  | ApplyFilters => applyFilters adm s
  | ClearFilters => (clearFilters adm s, None)
  | HandleSort column => (handleSort column s, None)
  | ClickPrevious q => (clickPrevious q s, None)
  | ClickNext q => (clickNext q s, None)
  | UrlChanged now callType period => (urlEffect now adm callType period s, None)
  end.

Fixpoint run (adm : option Admin) (acts : list Action) (s : State) : State :=
  match acts with
  | [] => s
  | a :: rest => run adm rest (step adm a s).1
  end.

(** *** Recordings *)

Definition shouldShowRecordings (callType : string) (callDuration : Z)
    (recordingsCount : Z) : bool :=
  if String.eqb callType "missed" || String.eqb callType "rejected"
     || (callDuration =? 0)
  then false
  else 0 <? recordingsCount.

(** The fields of a call log the recording controls depend on. *)
Record CallLog : Type := mkCallLog {
  call_type : string;
  call_duration : Z;
  recordings_count : option Z;
  recordings : option (list Z);      (* ids of the loaded recordings *)
}.

(** What a recording cell or the detail dialog offers. *)
Record Controls : Type := mkControls {
  play : bool;
  download : bool;
  noRecordingNotice : bool;
}.

(** The recording column of a table row. *)
Definition recordingColumn (adm : option Admin) (log : CallLog) : Controls :=
  if shouldShowRecordings (call_type log) (call_duration log)
       (default 0 (recordings_count log))
  then mkControls true (Pages.canManageCallLogs adm) false
  else mkControls false false true.

(** [selectedLog.recordings?.length ?? 0] *)
Definition recordings_length (log : CallLog) : Z :=
  match recordings log with
  | Some l => Z.of_nat (length l)
  | None => 0
  end.

(** The recordings part of the detail dialog: one audio player per
    recording, each with a download button when [showDownload]. *)
Definition detailRecordings (adm : option Admin) (log : CallLog) : Controls :=
  let show := shouldShowRecordings (call_type log) (call_duration log)
                (recordings_length log) in
  let players :=
    show && match recordings log with
            | Some l => 0 <? Z.of_nat (length l)
            | None => false
            end in
  mkControls players (players && Pages.canManageCallLogs adm) (negb show).

End CallLogs.

(* ===================================================================== *)
(** ** Notions used to state the properties                               *)
(* ===================================================================== *)

Module Scope.
Import CallLogs.

(** The filter key a role pins down on the call-log page, with the values
    it may take: the conditions are those under which [getInitialFilters]
    and [applyFilters] write the key. *)
Definition forcedScope (a : Admin) : option (string * list Z) :=
  match admin_role a with
  | manager =>
      match branch_truthy a with
      | Some b => Some ("branch_id", [b])
      | None => None
      end
  | trainee =>
      match assigned_nonempty a with
      | Some ids => Some ("user_id", ids)
      | None => None
      end
  | super_admin => None
  end.

(** The applied filter set [f] carries the forced key with an allowed value. *)
Definition scopeKept (a : Admin) (f : JsObj) : Prop :=
  ∀ key allowed, forcedScope a = Some (key, allowed) →
    ∃ u, u ∈ allowed ∧ get f key = JNum u.

(** Whether [applyFilters] may overwrite or check the staged value of [key]
    for this administrator. *)
Definition roleForces (adm : option Admin) (key : string) : bool :=
  match adm with
  | Some a =>
      match forcedScope a with
      | Some (k, _) => String.eqb k key
      | None => false
      end
  | None => false
  end.

(** The numeric filter fields of [CallLogFilters]. *)
Definition numericFields : list string :=
  ["duration_min"; "duration_max"; "branch_id"; "user_id"].

(** The partial filter set a deep link stands for: [call_type] when given,
    and the two dates of the period when a period is given. *)
Definition presetPartial (now : Z) (callType period : option string) : JsObj :=
  let dates : JsObj :=
    match period with
    | Some p =>
        if param_truthy period then
          {[ "date_to" := get (getDateRangeForPeriod now p) "date_to" ]}
          ∪ {[ "date_from" := get (getDateRangeForPeriod now p) "date_from" ]}
        else ∅
    | None => ∅
    end in
  match callType with
  | Some c => if param_truthy callType then dates ∪ {[ "call_type" := JStr c ]} else dates
  | None => dates
  end.

(** The condition under which recordings are available for a call. *)
Definition recordable (callType : string) (duration count : Z) : Prop :=
  callType ≠ "missed" ∧ callType ≠ "rejected" ∧ duration ≠ 0 ∧ 0 < count.

End Scope.

(** ** Sample sessions *)

Module Samples.
Import CallLogs.

Definition root : Admin := mkAdmin 1 super_admin None None.
Definition manager7 : Admin := mkAdmin 2 manager (Some 7) None.
Definition trainee42 : Admin := mkAdmin 3 trainee None (Some [42]).
Definition traineeNone : Admin := mkAdmin 4 trainee None (Some []).

Definition threePages : QueryView := mkQueryView false (Some 20%nat) 3.

(** An incoming call of one minute with one recording. *)
Definition recordedCall : CallLog := mkCallLog "incoming" 60 (Some 1) (Some [11]).

(** 2026-11-03, a Tuesday. *)
Definition aTuesday : Z := 20760.

End Samples.

(* ===================================================================== *)
(** ** Call logs page: table cells and filter dropdowns                   *)
(* ===================================================================== *)

Module CallLogsTable.
Import CallLogs.

(** The three icons a sortable column header can carry. *)
Inductive SortIcon : Type := ArrowUpDown | ArrowUp | ArrowDown.

#[global] Instance SortIcon_eq_dec : EqDecision SortIcon.
Proof. solve_decision. Defined.

Definition getSortIcon (s : State) (column : string) : SortIcon :=
  if negb (strict_eq (get (filters s) "sort_by") (JStr column)) then ArrowUpDown
  else if strict_eq (get (filters s) "sort_order") (JStr "asc") then ArrowUp
  else ArrowDown.

(** The sort order [handleSort] computes before it writes the filters. *)
Definition newSortOrder (s : State) (column : string) : string :=
  if strict_eq (get (filters s) "sort_by") (JStr column)
  then (if strict_eq (get (filters s) "sort_order") (JStr "asc") then "desc" else "asc")
  else "asc".

(** [formatDuration(seconds)] on whole seconds: [Math.floor] of the quotient
    rounds down, [%] keeps the sign of the dividend.  The code computes in
    doubles; the two agree for whole seconds up to [MAX_SAFE_INTEGER] in
    absolute value, and larger durations are outside this model. *)
Definition formatDuration (seconds : Z) : string :=
  let minutes := seconds / 60 in
  let secs := Z.rem seconds 60 in
  pretty minutes +:+ ":" +:+ JsDate.padStart2 (pretty secs).

(** The buttons of the Actions cell of a row. *)
Record Actions : Type := mkActions {
  productivityTracking : bool;
  viewDetails : bool;
  deleteCallLog : bool;
}.

Definition rowActions (adm : option Admin) (log : CallLog) : Actions :=
  mkActions
    (String.eqb (call_type log) "missed" || String.eqb (call_type log) "rejected")
    true
    (Pages.canManageCallLogs adm).

End CallLogsTable.

Module ApplySteps.
Import CallLogs.

(** The three steps of [applyFilters], named: the time-without-date rule,
    the check of a trainee's staged user, and the staged set after the
    role assignments. *)
Definition timeWithoutDate (pending : JsObj) : bool :=
  (truthy (get pending "time_from") || truthy (get pending "time_to"))
  && negb (truthy (get pending "date_from"))
  && negb (truthy (get pending "date_to")).

Definition restricted (adm : option Admin) : bool :=
  role_is adm trainee && bool_decide (availableUserIds adm ≠ []).

Definition userRejected (adm : option Admin) (pending : JsObj) : bool :=
  restricted adm && truthy (get pending "user_id")
  && negb (includes (availableUserIds adm) (get pending "user_id")).

Definition rolePending (adm : option Admin) (pending : JsObj) : JsObj :=
  let pending :=
    if restricted adm && negb (truthy (get pending "user_id"))
    then <["user_id" := first (availableUserIds adm)]> pending
    else pending in
  match adm with
  | Some a =>
      match admin_role a, branch_truthy a with
      | manager, Some b => <["branch_id" := JNum b]> pending
      | _, _ => pending
      end
  | None => pending
  end.

End ApplySteps.

Module User.

(** An app user as the dropdowns and the assignment dialog read it. *)
Record t : Type := mk {
  id : Z;
  branch_id : option Z;
}.

#[global] Instance eq_dec : EqDecision t.
Proof. solve_decision. Defined.

End User.

Module FilterDropdowns.
Import CallLogs.

(** [loadFilterData]: the agents offered in the Agent dropdown, from the
    active users the API returned. *)
Definition filteredUsers (adm : option Admin) (data : list User.t) : list User.t :=
  if role_is adm trainee && bool_decide (availableUserIds adm ≠ [])
  then List.filter (λ user, includes (availableUserIds adm) (JNum (User.id user))) data
  else
    match adm with
    | Some a =>
        match admin_role a, branch_truthy a with
        | manager, Some b =>
            List.filter (λ user, bool_decide (User.branch_id user = Some b)) data
        | _, _ => data
        end
    | None => data
    end.

(** Branches are loaded for a super_admin only. *)
Definition branchesLoaded (adm : option Admin) : bool := role_is adm super_admin.

(** Choosing an agent: the option value is [user.id.toString()], which
    [parseInt] reads back, and the result is staged under [user_id]. *)
Definition selectAgent (user : User.t) (s : State) : State :=
  handleFilterChange "user_id" (JNum (User.id user)) s.

End FilterDropdowns.

(* ===================================================================== *)
(** ** Dashboard: the statistic cards link to the call logs page          *)
(* ===================================================================== *)

Module Dashboard.
Import CallLogs.

Inductive Period : Type := daily | weekly | monthly.

(** The period as the string the union type stands for. *)
Definition period_text (p : Period) : string :=
  match p with
  | daily => "daily"
  | weekly => "weekly"
  | monthly => "monthly"
  end.

(** [handleCardClick(callType?)]: the search parameters of the link. *)
Definition handleCardClick (period : Period) (callType : option string)
    : gmap string string :=
  let params : gmap string string := ∅ in
  let params :=
    match callType with
    | Some c => if param_truthy callType then <["call_type" := c]> params else params
    | None => params
    end in
  <["period" := period_text period]> params.

(** The call logs page reads the parameters back with [searchParams.get]. *)
Definition urlEffectOn (now : Z) (adm : option Admin)
    (searchParams : gmap string string) (s : State) : State :=
  urlEffect now adm (searchParams !! "call_type") (searchParams !! "period") s.

(** [formatDuration(seconds)] of the dashboard: hours and minutes, for
    whole seconds up to [MAX_SAFE_INTEGER] in absolute value (the code
    computes in doubles, which are exact there). *)
Definition formatDuration (seconds : Z) : string :=
  let hours := seconds / 3600 in
  let minutes := Z.rem seconds 3600 / 60 in
  if 0 <? hours then pretty hours +:+ "h " +:+ pretty minutes +:+ "m"
  else pretty minutes +:+ "m".

End Dashboard.

(* ===================================================================== *)
(** ** Calendar arithmetic in two steps                                   *)
(* ===================================================================== *)

Module CalendarParts.

(** The part of [JsDate.civil_from_days] that follows once the era and the
    day of the era are known, and the day of the era that
    [JsDate.days_from_civil] adds up. *)
Definition civil_from_era_doe (era doe : Z) : Z * Z * Z :=
  let yoe := (doe - doe / 1460 + doe / 36524 - doe / 146096) / 365 in
  let doy := doe - (365 * yoe + yoe / 4 - yoe / 100) in
  let mp := (5 * doy + 2) / 153 in
  let d := doy - (153 * mp + 2) / 5 + 1 in
  let m := if mp <? 10 then mp + 3 else mp - 9 in
  let y := yoe + era * 400 in
  (if m <=? 2 then y + 1 else y, m, d).

Definition doe_from_civil (yoe m d : Z) : Z :=
  let mp := if 2 <? m then m - 3 else m + 9 in
  let doy := (153 * mp + 2) / 5 + d - 1 in
  yoe * 365 + yoe / 4 - yoe / 100 + doy.

(** The first of month [m] in year [yoe] of an era converts back to
    itself, checked by evaluation below for every year of an era. *)
Definition first_of_month_ok (yoe m : Z) : bool :=
  let doe := doe_from_civil yoe m 1 in
  (0 <=? doe) && (doe <? 146097)
  && bool_decide (civil_from_era_doe 0 doe = (if m <=? 2 then yoe + 1 else yoe, m, 1)).

End CalendarParts.

(* ===================================================================== *)
(** ** Session store (store/authStore.ts) and HTTP interceptors           *)
(* ===================================================================== *)

Module AuthStore.

Record Store : Type := mkStore {
  admin : option Admin;
  token : option string;
  isAuthenticated : bool;
}.

(** The store next to the browser's [localStorage]. *)
Definition World : Type := Store * gmap string string.

Definition initial : Store := mkStore None None false.

(** What the route guards and pages read from the store. *)
Definition authState (st : Store) : AuthState :=
  mkAuth (admin st) (isAuthenticated st).

Definition logout (w : World) : World :=
  (mkStore None None false, delete "auth_token" (delete "admin" w.2)).

Section WithJSON.

(** [JSON.stringify] on an administrator, and [JSON.parse] on a stored
    text: [None] when it throws, [Some None] when the text is [null]. *)
Variable stringify : Admin → string.
Variable parse : string → option (option Admin).

Definition setAuth (a : Admin) (t : string) (w : World) : World :=
  (mkStore (Some a) (Some t) true,
   <["auth_token" := t]> (<["admin" := stringify a]> w.2)).

Definition initAuth (w : World) : World :=
  match w.2 !! "admin", w.2 !! "auth_token" with
  | Some storedAdmin, Some storedToken =>
      if negb (String.eqb storedAdmin "") && negb (String.eqb storedToken "")
      then match parse storedAdmin with
           | Some a => (mkStore a (Some storedToken) true, w.2)
           | None => (w.1, delete "auth_token" (delete "admin" w.2))
           end
      else w
  | _, _ => w
  end.

(** Loading the page: a fresh store, then [initAuth] from the App effect. *)
Definition reload (ls : gmap string string) : World := initAuth (initial, ls).

Inductive Action : Type :=
| SetAuth (a : Admin) (t : string)
| Logout
| InitAuth.

Definition step (act : Action) (w : World) : World :=
  match act with
  | SetAuth a t => setAuth a t w
  | Logout => logout w
  | InitAuth => initAuth w
  end.

Fixpoint run (acts : list Action) (w : World) : World :=
  match acts with
  | [] => w
  | act :: rest => run rest (step act w)
  end.

(** The store and the storage agree on the session: the flag goes with the
    token, a logged-out store has no administrator, and the token of the
    store is the stored one, next to an administrator text that parses. *)
Definition coherent (w : World) : Prop :=
  (isAuthenticated w.1 = true ↔ is_Some (token w.1))
  ∧ (isAuthenticated w.1 = false → admin w.1 = None)
  ∧ (∀ t, token w.1 = Some t →
       w.2 !! "auth_token" = Some t
       ∧ ∃ storedAdmin, w.2 !! "admin" = Some storedAdmin
                        ∧ is_Some (parse storedAdmin)).

End WithJSON.

(** Sidebar: [handleLogout]; [apiOk] tells whether the logout request
    succeeded.  The result is the new world and the success toast, if any. *)
Definition handleLogout (apiOk : bool) (w : World) : World * option string :=
  if apiOk then (logout w, Some "Logged out successfully")
  else (logout w, None).

End AuthStore.

Module Api.

(** Request interceptor: the [Authorization] header it adds, if any. *)
Definition authorization (ls : gmap string string) : option string :=
  match ls !! "auth_token" with
  | Some t => if negb (String.eqb t "") then Some ("Bearer " +:+ t) else None
  | None => None
  end.

(** Response interceptor on an error with the given status, if the error
    has a response: the storage afterwards and the page the browser is
    sent to. *)
Definition onResponseError (status : option Z) (ls : gmap string string)
    : gmap string string * option string :=
  if bool_decide (status = Some 401) || bool_decide (status = Some 403)
  then (delete "admin" (delete "auth_token" ls), Some "/login")
  else (ls, None).

End Api.

(* ===================================================================== *)
(** ** Admins page: the dialog that assigns users to a trainee            *)
(* ===================================================================== *)

Module AssignUsers.

(** [arr.indexOf(x)]: the first position of [x], or -1. *)
Fixpoint indexOf_from (l : list Z) (x : Z) (i : Z) : Z :=
  match l with
  | [] => -1
  | y :: rest => if y =? x then i else indexOf_from rest x (i + 1)
  end.

Definition indexOf (l : list Z) (x : Z) : Z := indexOf_from l x 0.

(** [arr.filter((item, index) => f(item, index))] *)
Fixpoint filter_from {A : Type} (f : A → Z → bool) (l : list A) (i : Z) : list A :=
  match l with
  | [] => []
  | x :: rest =>
      if f x i then x :: filter_from f rest (i + 1) else filter_from f rest (i + 1)
  end.

Definition includes (l : list Z) (x : Z) : bool := bool_decide (x ∈ l).

(** [combined.filter((id, index) => combined.indexOf(id) === index)] *)
Definition uniqueIds (combined : list Z) : list Z :=
  filter_from (λ id index, indexOf combined id =? index) combined 0.

Definition handleSelectAll (filteredUsers : list User.t) (selectedUserIds : list Z)
    : list Z :=
  let allFilteredIds := map User.id filteredUsers in
  let allSelected := forallb (λ id, includes selectedUserIds id) allFilteredIds in
  if allSelected
  then List.filter (λ id, negb (includes allFilteredIds id)) selectedUserIds
  else
    let combined := (selectedUserIds ++ allFilteredIds)%list in
    uniqueIds combined.

Definition handleSelectByBranch (users : list User.t) (branchId : Z)
    (selectedUserIds : list Z) : list Z :=
  let branchUserIds :=
    map User.id
      (List.filter (λ user, bool_decide (User.branch_id user = Some branchId)) users) in
  let allBranchSelected := forallb (λ id, includes selectedUserIds id) branchUserIds in
  if allBranchSelected
  then List.filter (λ id, negb (includes branchUserIds id)) selectedUserIds
  else
    let combined := (selectedUserIds ++ branchUserIds)%list in
    uniqueIds combined.

(** The label of the select-all button says what a click will do. *)
Definition selectAllLabel (filteredUsers : list User.t) (selectedUserIds : list Z)
    : string :=
  if forallb (λ u, includes selectedUserIds (User.id u)) filteredUsers
  then "Deselect All" else "Select All".

(** The quick-select button of a branch is highlighted when its two
    counters agree and are not zero. *)
Definition branchUserCount (users : list User.t) (branchId : Z) : nat :=
  length (List.filter (λ u, bool_decide (User.branch_id u = Some branchId)) users).

Definition branchSelectedCount (users : list User.t) (selectedUserIds : list Z)
    (branchId : Z) : nat :=
  length (List.filter
            (λ u, bool_decide (User.branch_id u = Some branchId)
                  && includes selectedUserIds (User.id u)) users).

Definition branchHighlighted (users : list User.t) (selectedUserIds : list Z)
    (branchId : Z) : bool :=
  Nat.eqb (branchSelectedCount users selectedUserIds branchId)
          (branchUserCount users branchId)
  && Nat.ltb 0 (branchUserCount users branchId).

(** The checkbox of one user: [checked] is the new state of the box. *)
Definition onUserChecked (checked : bool) (userId : Z) (selectedUserIds : list Z)
    : list Z :=
  if checked then (selectedUserIds ++ [userId])%list
  else List.filter (λ id, negb (id =? userId)) selectedUserIds.

End AssignUsers.

(** ** Sample codecs for the stored administrator *)

Module SampleJson.

(** A codec that knows one administrator. *)
Definition stringify (a : Admin) : string := "{trainee42}".
Definition parse (text : string) : option (option Admin) :=
  if String.eqb text "{trainee42}" then Some (Some Samples.trainee42) else None.

(** A parser that reads every text as [null]. *)
Definition parse_null (text : string) : option (option Admin) := Some None.

End SampleJson.

(* ===================================================================== *)
(** * Properties                                                          *)
(* ===================================================================== *)

Import Js CallLogs Scope.

(** ** Reading properties of built objects *)

Lemma get_insert_eq (o : JsObj) k v : get (<[k := v]> o) k = v.
Proof. unfold get. by rewrite lookup_insert_eq. Qed.

Lemma get_insert_ne (o : JsObj) k k' v : k ≠ k' → get (<[k := v]> o) k' = get o k'.
Proof. intros H. unfold get. by rewrite lookup_insert_ne. Qed.

Lemma get_spread_own (a b : JsObj) k v : b !! k = Some v → get (spread a b) k = v.
Proof.
  intros H. unfold get, spread.
  by rewrite (lookup_union_Some_l b a k v H).
Qed.

Lemma get_spread_absent (a b : JsObj) k : b !! k = None → get (spread a b) k = get a k.
Proof. intros H. unfold get, spread. by rewrite lookup_union_r. Qed.

Lemma get_defined (o : JsObj) k v : get o k = v → v ≠ JUndef → o !! k = Some v.
Proof.
  unfold get. destruct (o !! k) as [w|]; simpl; intros ->; [done|congruence].
Qed.

(** The falsy values: [undefined], [NaN], zero and the empty string. *)
Lemma truthy_false_cases v :
  truthy v = false ↔ v = JUndef ∨ v = JNaN ∨ v = JNum 0 ∨ v = JStr "".
Proof.
  destruct v as [| |n|s]; simpl.
  - tauto.
  - tauto.
  - rewrite negb_false_iff, Z.eqb_eq. split.
    + intros ->. tauto.
    + intros [H|[H|[H|H]]]; congruence.
  - rewrite negb_false_iff, String.eqb_eq. split.
    + intros ->. tauto.
    + intros [H|[H|[H|H]]]; congruence.
Qed.

Lemma includes_elem ids v : includes ids v = true → ∃ n, v = JNum n ∧ n ∈ ids.
Proof.
  destruct v as [| |n|s]; simpl; try discriminate.
  intros H. apply bool_decide_eq_true in H. eauto.
Qed.

Lemma role_is_true adm r :
  role_is adm r = true ↔ ∃ a, adm = Some a ∧ admin_role a = r.
Proof.
  destruct adm as [a|]; simpl.
  - rewrite bool_decide_eq_true. split; [eauto|]. by intros (a' & [= <-] & ?).
  - split; [discriminate|]. by intros (a' & ? & ?).
Qed.

(** ** Calendar samples *)

Example formatDate_sample : formatDate Samples.aTuesday = "2026-11-03".
Proof. reflexivity. Qed.

Example weekly_range_sample :
  getDateRangeForPeriod Samples.aTuesday "weekly"
  = <["date_to" := JStr "2026-11-03"]> (<["date_from" := JStr "2026-11-01"]> ∅).
Proof. reflexivity. Qed.

Example weekly_range_over_month_start :
  getDateRangeForPeriod (JsDate.days_from_civil 2025 1 1) "weekly"
  = <["date_to" := JStr "2025-01-01"]> (<["date_from" := JStr "2024-12-29"]> ∅).
Proof. reflexivity. Qed.

Example monthly_range_sample :
  getDateRangeForPeriod Samples.aTuesday "monthly"
  = <["date_to" := JStr "2026-11-03"]> (<["date_from" := JStr "2026-11-01"]> ∅).
Proof. reflexivity. Qed.

Example unknown_period_sample : getDateRangeForPeriod Samples.aTuesday "yearly" = ∅.
Proof. reflexivity. Qed.

(** With the clock in the year 50 the constructor moves [today] to 1950. *)
Example two_digit_year_sample :
  formatDate (JsDate.days_from_civil 50 1 15) = "50-01-15"
  ∧ getDateRangeForPeriod (JsDate.days_from_civil 50 1 15) "daily"
    = <["date_to" := JStr "1950-01-15"]> (<["date_from" := JStr "1950-01-15"]> ∅).
Proof. split; reflexivity. Qed.

(** ** Route matching samples *)

Example matchPath_samples :
  Routes.matchPath "/users" "/users" = true
  ∧ Routes.matchPath "/users" "/USERS" = true
  ∧ Routes.matchPath "/users" "/users/" = true
  ∧ Routes.matchPath "/users" "/users/1" = false
  ∧ Routes.matchPath "/login" "/login-activities" = false
  ∧ Routes.App (mkAuth (Some Samples.trainee42) true) "/Users/"
    = Routes.Children Routes.Users.
Proof. repeat split; reflexivity. Qed.

(* ===================================================================== *)
(** ** Navigation and page access by role                                 *)
(* ===================================================================== *)

(** C1 (as stated, refuted): the App Users entry carries no role list, and
    it is what the administration menu shows to a trainee; the two entries
    of the main menu shown to a trainee carry no role list either. *)
Lemma nav_default_visible_counterexample :
  Sidebar.adminNavItems (Some Samples.trainee42)
    = [Sidebar.mkNavItem "/users" "App Users" None]
  ∧ Sidebar.navItems (Some Samples.trainee42)
    = [Sidebar.mkNavItem "/dashboard" "Dashboard" None;
       Sidebar.mkNavItem "/call-logs" "Call Logs" None].
Proof. split; reflexivity. Qed.

(** C1 (amended): the sidebar tests an entry against its role list only
    when the entry has one and an administrator with a role is signed in.
    An entry of the two tables is in the menu exactly when no
    administrator is in the store, or the entry carries no list, or the
    administrator's role is in its list.  So every administrator is shown
    Dashboard, Call Logs and App Users; a manager also Devices and Login
    Activity; a super_admin, and a store without administrator, every
    entry. *)
Theorem nav_visibility_by_role (adm : option Admin) :
  (∀ item, item ∈ (Sidebar.allNavItems ++ Sidebar.allAdminNavItems)%list →
     (item ∈ (Sidebar.navItems adm ++ Sidebar.adminNavItems adm)%list
      ↔ adm = None
        ∨ Sidebar.allowedRoles item = None
        ∨ ∃ a roles, adm = Some a ∧ Sidebar.allowedRoles item = Some roles
                     ∧ admin_role a ∈ roles))
  ∧ Sidebar.label <$> Sidebar.navItems adm
    = match admin_role <$> adm with
      | Some trainee => ["Dashboard"; "Call Logs"]
      | Some manager | Some super_admin | None =>
          ["Dashboard"; "Call Logs"; "Devices"]
      end
  ∧ Sidebar.label <$> Sidebar.adminNavItems adm
    = match admin_role <$> adm with
      | Some trainee => ["App Users"]
      | Some manager => ["App Users"; "Login Activity"]
      | Some super_admin | None =>
          ["Branches"; "App Users"; "Admins"; "Login Activity"]
      end.
Proof.
  split.
  - intros item Hitem.
    rewrite !elem_of_app. unfold Sidebar.navItems, Sidebar.adminNavItems.
    rewrite !list_elem_of_In, !filter_In, <- !list_elem_of_In.
    rewrite elem_of_app in Hitem.
    assert (Hshow : Sidebar.showItem (admin_role <$> adm) item = true
              ↔ adm = None
                ∨ Sidebar.allowedRoles item = None
                ∨ ∃ a roles, adm = Some a ∧ Sidebar.allowedRoles item = Some roles
                             ∧ admin_role a ∈ roles).
    { unfold Sidebar.showItem.
      destruct (Sidebar.allowedRoles item) as [roles|], adm as [a|]; simpl.
      - rewrite bool_decide_eq_true. split.
        + intros Hin. right. right. eauto.
        + intros [?|[?|(a' & roles' & [= <-] & [= <-] & Hin)]]; done.
      - split; auto.
      - split; auto.
      - split; auto. }
    rewrite <- Hshow. tauto.
  - destruct adm as [[i [] br asg]|]; split; reflexivity.
Qed.

Lemma nav_visibility_by_role_witness :
  Sidebar.mkNavItem "/devices" "Devices" (Some [super_admin; manager])
    ∈ (Sidebar.allNavItems ++ Sidebar.allAdminNavItems)%list
  ∧ Sidebar.mkNavItem "/devices" "Devices" (Some [super_admin; manager])
    ∈ (Sidebar.navItems (Some Samples.manager7)
       ++ Sidebar.adminNavItems (Some Samples.manager7))%list.
Proof.
  assert (Hitem : Sidebar.mkNavItem "/devices" "Devices" (Some [super_admin; manager])
            ∈ (Sidebar.allNavItems ++ Sidebar.allAdminNavItems)%list).
  { apply (bool_decide_unpack _). vm_compute. exact I. }
  split; [exact Hitem|].
  apply (proj1 (nav_visibility_by_role (Some Samples.manager7)) _ Hitem).
  right. right. exists Samples.manager7, [super_admin; manager].
  split; [reflexivity|]. split; [reflexivity|].
  apply (bool_decide_unpack _). vm_compute. exact I.
Defined.

(** C2 (as stated, refuted): an authenticated trainee is shown the App
    Users entry, and both route tables render the users page for them. *)
Lemma trainee_users_counterexample :
  Sidebar.mkNavItem "/users" "App Users" None
    ∈ Sidebar.adminNavItems (Some Samples.trainee42)
  ∧ Routes.App (mkAuth (Some Samples.trainee42) true) "/users"
    = Routes.Children Routes.Users
  ∧ Routes.AppLazy (mkAuth (Some Samples.trainee42) true) "/users"
    = Routes.Children Routes.Users.
Proof. split; [|split]; [|reflexivity|reflexivity]. vm_compute. apply list_elem_of_here. Qed.

(** C2 (amended): for every trainee the users resource is visible (the
    entry is in the menu and the route renders the page once
    authenticated), but read-only: [canEdit] of the users page is off. *)
Theorem trainee_users_visible_read_only (a : Admin) :
  admin_role a = trainee →
  Sidebar.mkNavItem "/users" "App Users" None ∈ Sidebar.adminNavItems (Some a)
  ∧ Routes.App (mkAuth (Some a) true) "/users" = Routes.Children Routes.Users
  ∧ Routes.AppLazy (mkAuth (Some a) true) "/users" = Routes.Children Routes.Users
  ∧ Pages.Users_canEdit (Some a) = false.
Proof.
  intros Hrole. repeat split.
  - unfold Sidebar.adminNavItems. simpl. rewrite Hrole. simpl.
    apply list_elem_of_here.
  - unfold Pages.Users_canEdit. simpl. rewrite Hrole. reflexivity.
Qed.

Lemma trainee_users_visible_read_only_witness :
  admin_role Samples.trainee42 = trainee
  ∧ Pages.Users_canEdit (Some Samples.trainee42) = false.
Proof.
  split; [reflexivity|].
  apply (trainee_users_visible_read_only Samples.trainee42). reflexivity.
Defined.

(** The two versions of the users page differ for a manager only: both are
    read-only for a trainee and editable for a super_admin. *)
Lemma users_pages_canEdit (a : Admin) :
  (admin_role a = trainee →
     Pages.Users_canEdit (Some a) = false ∧ Pages.UsersPaged_canEdit (Some a) = false)
  ∧ (admin_role a = super_admin →
       Pages.Users_canEdit (Some a) = true ∧ Pages.UsersPaged_canEdit (Some a) = true)
  ∧ (admin_role a = manager →
       Pages.Users_canEdit (Some a) = true ∧ Pages.UsersPaged_canEdit (Some a) = false).
Proof.
  unfold Pages.Users_canEdit, Pages.UsersPaged_canEdit, role_is. simpl.
  split; [|split]; intros ->; split; reflexivity.
Qed.

(* ===================================================================== *)
(** ** Deleting an administrator                                          *)
(* ===================================================================== *)

(** C5: whatever the role and whatever the answer to the confirmation
    dialog would be, asking to delete one's own account only shows the
    error toast and never issues the delete request; the delete button is
    not rendered on one's own card either. *)
Theorem no_self_delete (a : Admin) (confirmed : bool) :
  AdminsPage.handleDelete (Some a) confirmed (id a)
    = [AdminsPage.ToastError "You cannot delete your own account"]
  ∧ (AdminsPage.DeleteMutate (id a) ∉ AdminsPage.handleDelete (Some a) confirmed (id a))
  ∧ AdminsPage.deleteButtonShown (Some a) (id a) = false.
Proof.
  assert (H : AdminsPage.handleDelete (Some a) confirmed (id a)
              = [AdminsPage.ToastError "You cannot delete your own account"]).
  { unfold AdminsPage.handleDelete. simpl. by rewrite bool_decide_eq_true_2. }
  split; [exact H|split].
  - rewrite H. intros Hin. apply list_elem_of_singleton in Hin. discriminate.
  - unfold AdminsPage.deleteButtonShown. simpl.
    rewrite (bool_decide_eq_true_2 (Some (id a) = Some (id a))) by reflexivity.
    apply andb_false_r.
Qed.

(* ===================================================================== *)
(** ** Recording controls                                                 *)
(* ===================================================================== *)

Lemma shouldShowRecordings_spec callType duration count :
  shouldShowRecordings callType duration count = true
  ↔ recordable callType duration count.
Proof.
  unfold shouldShowRecordings, recordable.
  destruct (String.eqb_spec callType "missed") as [->|Hm]; simpl.
  { split; [discriminate|]. intros (H & _). by destruct H. }
  destruct (String.eqb_spec callType "rejected") as [->|Hr]; simpl.
  { split; [discriminate|]. intros (_ & H & _). by destruct H. }
  destruct (Z.eqb_spec duration 0) as [->|Hd]; simpl.
  { split; [discriminate|]. intros (_ & _ & H & _). by destruct H. }
  rewrite Z.ltb_lt. tauto.
Qed.

(** C10 (as stated, refuted): for a manager, a recorded incoming call gets
    the play button but no download button, in the table and in the detail
    dialog. *)
Lemma download_needs_super_admin_counterexample :
  recordingColumn (Some Samples.manager7) Samples.recordedCall
    = mkControls true false false
  ∧ detailRecordings (Some Samples.manager7) Samples.recordedCall
    = mkControls true false false.
Proof. split; reflexivity. Qed.

(** C10 (amended): playback is offered exactly when the call is neither
    missed nor rejected, has a nonzero duration and at least one recording;
    download is offered exactly when, in addition, the caller is a
    super_admin; otherwise the entry shows the no-recording notice and no
    control.  The table counts with [recordings_count], the detail dialog
    with the loaded recordings. *)
Theorem recording_controls (adm : option Admin) (log : CallLog) :
  let row := recordingColumn adm log in
  let dialog := detailRecordings adm log in
  let counted := default 0 (recordings_count log) in
  (play row = true ↔ recordable (call_type log) (call_duration log) counted)
  ∧ (download row = true
     ↔ recordable (call_type log) (call_duration log) counted
       ∧ role_is adm super_admin = true)
  ∧ noRecordingNotice row = negb (play row)
  ∧ (play dialog = true
     ↔ recordable (call_type log) (call_duration log) (recordings_length log))
  ∧ (download dialog = true
     ↔ recordable (call_type log) (call_duration log) (recordings_length log)
       ∧ role_is adm super_admin = true)
  ∧ noRecordingNotice dialog = negb (play dialog).
Proof.
  cbv zeta. unfold recordingColumn, detailRecordings, Pages.canManageCallLogs.
  rewrite <- !shouldShowRecordings_spec.
  assert (Hlen : ∀ b, shouldShowRecordings (call_type log) (call_duration log)
                        (recordings_length log) = b →
                      (b && match recordings log with
                            | Some l => 0 <? Z.of_nat (length l)
                            | None => false
                            end) = b).
  { intros [] Hb; [|done]. simpl.
    apply shouldShowRecordings_spec in Hb as (_ & _ & _ & Hpos).
    unfold recordings_length in Hpos.
    destruct (recordings log); [by apply Z.ltb_lt|lia]. }
  destruct (shouldShowRecordings (call_type log) (call_duration log)
              (default 0 (recordings_count log))) eqn:Hrow;
  destruct (shouldShowRecordings (call_type log) (call_duration log)
              (recordings_length log)) eqn:Hdlg;
  rewrite (Hlen _ eq_refl); simpl;
  destruct (role_is adm super_admin); simpl; intuition congruence.
Qed.

(* ===================================================================== *)
(** ** Applying the staged filters                                        *)
(* ===================================================================== *)

(** C4: a staged time bound without any staged date makes [applyFilters]
    return early with the alert that names the rule; the applied set, the
    staged set and the search text are exactly what they were. *)
Theorem time_without_date_rejected (adm : option Admin) (s : State) :
  truthy (get (pendingFilters s) "time_from")
    || truthy (get (pendingFilters s) "time_to") = true →
  truthy (get (pendingFilters s) "date_from") = false →
  truthy (get (pendingFilters s) "date_to") = false →
  applyFilters adm s = (s, Some "Please select a date when using time filters").
Proof.
  intros Htime Hfrom Hto. unfold applyFilters.
  by rewrite Htime, Hfrom, Hto.
Qed.

Lemma time_without_date_rejected_witness :
  let s := handleFilterChange "time_to" (JStr "18:30")
             (initialState (Some Samples.manager7)) in
  applyFilters (Some Samples.manager7) s
    = (s, Some "Please select a date when using time filters").
Proof.
  apply (time_without_date_rejected (Some Samples.manager7)); reflexivity.
Defined.

(* ===================================================================== *)
(** ** Pager                                                              *)
(* ===================================================================== *)

(** Without a rendered pager there is nothing to click. *)
Lemma pager_hidden_no_change (q : QueryView) (s : State) :
  pagerShown q = false → clickPrevious q s = s ∧ clickNext q s = s.
Proof. intros H. unfold clickPrevious, clickNext. by rewrite H. Qed.

(** Sorting twice by the same column goes from ascending to descending. *)
Lemma handleSort_toggles (column : string) (s : State) :
  get (filters (handleSort column s)) "sort_by" = JStr column
  ∧ get (filters (handleSort column (handleSort column s))) "sort_order"
    = JStr (if strict_eq (get (filters (handleSort column s)) "sort_order") (JStr "asc")
            then "desc" else "asc").
Proof.
  assert (Hby : get (filters (handleSort column s)) "sort_by" = JStr column).
  { unfold handleSort. simpl. rewrite !get_insert_ne by done. apply get_insert_eq. }
  split; [exact Hby|].
  revert Hby. generalize (handleSort column s). intros s1 Hby.
  unfold handleSort. simpl.
  rewrite get_insert_ne by done. rewrite get_insert_eq.
  rewrite Hby. simpl. by rewrite String.eqb_refl.
Qed.

(** C7 (as stated, refuted): on the first of three pages, asking for the
    previous page leaves the state as it is and raises nothing. *)
Lemma pager_out_of_range_silent_counterexample :
  get (filters (initialState (Some Samples.root))) "page" = JNum 1
  ∧ step (Some Samples.root) (ClickPrevious Samples.threePages)
         (initialState (Some Samples.root))
    = (initialState (Some Samples.root), None).
Proof. split; reflexivity. Qed.

(** C7 (amended): with the pager shown and the current page within
    1..last_page, a step that would leave the range is not taken (the
    button is disabled): the state is unchanged and nothing is raised;
    any other step only rewrites [page], by one, with no validation and no
    merge of the staged filters, and stays within the range. *)
Theorem pager_navigation (adm : option Admin) (q : QueryView) (s : State) (p : Z) :
  pagerShown q = true →
  get (filters s) "page" = JNum p →
  1 ≤ p ≤ last_page q →
  step adm (ClickPrevious q) s
    = (if p =? 1 then s
       else mkState (<["page" := JNum (p - 1)]> (filters s)) (pendingFilters s) (search s),
       None)
  ∧ step adm (ClickNext q) s
    = (if p =? last_page q then s
       else mkState (<["page" := JNum (p + 1)]> (filters s)) (pendingFilters s) (search s),
       None)
  ∧ (p ≠ 1 → 1 ≤ p - 1 ≤ last_page q)
  ∧ (p ≠ last_page q → 1 ≤ p + 1 ≤ last_page q).
Proof.
  intros Hshown Hpage Hrange. simpl.
  unfold clickPrevious, clickNext, previousDisabled, nextDisabled.
  rewrite Hshown, Hpage. simpl.
  assert (Htruthy : or_else (JNum p) (JNum 1) = JNum p).
  { unfold or_else. simpl. destruct (Z.eqb_spec p 0); [lia|done]. }
  rewrite Htruthy. simpl.
  repeat split; try lia.
  - by destruct (p =? 1).
  - by destruct (p =? last_page q).
Qed.

Lemma pager_navigation_witness :
  step (Some Samples.root) (ClickNext Samples.threePages)
       (initialState (Some Samples.root))
  = (mkState (<["page" := JNum 2]> (getInitialFilters (Some Samples.root))) ∅ "", None).
Proof.
  apply (pager_navigation (Some Samples.root) Samples.threePages
           (initialState (Some Samples.root)) 1);
    [reflexivity | reflexivity | simpl; lia].
Defined.

(* ===================================================================== *)
(** ** Page reset                                                         *)
(* ===================================================================== *)

Lemma getInitialFilters_page adm : get (getInitialFilters adm) "page" = JNum 1.
Proof.
  unfold getInitialFilters.
  destruct adm as [a|]; [|reflexivity].
  destruct (admin_role a), (assigned_nonempty a), (branch_truthy a); reflexivity.
Qed.

Lemma applyFilters_accepted adm s s' :
  applyFilters adm s = (s', None) →
  ∃ pending, s' = mkState (<["page" := JNum 1]> (spread (filters s) pending))
                          pending (search s).
Proof.
  unfold applyFilters.
  repeat match goal with |- context [if ?c then _ else _] => destruct c end;
    intros [= <-]; eauto.
Qed.

Lemma presetPartial_lookup now callType period k :
  k ≠ "call_type" → k ≠ "date_from" → k ≠ "date_to" →
  presetPartial now callType period !! k = None.
Proof.
  intros H1 H2 H3. unfold presetPartial.
  assert (Hd : ∀ x y : JsVal,
    (({[ "date_to" := x ]} : JsObj) ∪ {[ "date_from" := y ]}) !! k = None).
  { intros x y. apply lookup_union_None. split; by apply lookup_singleton_ne. }
  destruct callType as [c|], period as [p|];
    repeat match goal with |- context [if ?c then _ else _] => destruct c end;
    rewrite ?lookup_union_None, ?lookup_empty, ?Hd; repeat split;
    try done; by apply lookup_singleton_ne.
Qed.

(** The applied set after the URL effect body: the preset over the base. *)
Lemma applyUrlPreset_filters now adm callType period s :
  filters (applyUrlPreset now adm callType period s)
  = spread (getInitialFilters adm) (presetPartial now callType period).
Proof.
  unfold applyUrlPreset, presetPartial, spread. simpl.
  rewrite (left_id_L ∅ (∪)).
  destruct callType as [c|], period as [p|];
    repeat match goal with |- context [if ?c then _ else _] => destruct c end;
    rewrite ?insert_union_singleton_l, ?(left_id_L ∅ (∪)), <- ?(assoc_L (∪));
    reflexivity.
Qed.

(** C8 (as stated, refuted): on page 2 of 3, applying a staged time bound
    without a date is rejected, and the applied page is still 2. *)
Lemma rejected_apply_keeps_page_counterexample :
  let s := run (Some Samples.root)
             [ClickNext Samples.threePages;
              HandleFilterChange "time_from" (JStr "10:00")]
             (initialState (Some Samples.root)) in
  get (filters s) "page" = JNum 2
  ∧ step (Some Samples.root) ApplyFilters s
    = (s, Some "Please select a date when using time filters")
  ∧ get (filters (step (Some Samples.root) ApplyFilters s).1) "page" = JNum 2.
Proof. repeat split; reflexivity. Qed.

Lemma applyFilters_rejected adm s s' msg :
  applyFilters adm s = (s', Some msg) → s' = s.
Proof.
  unfold applyFilters.
  repeat match goal with |- context [if ?c then (s, Some _) else _] => destruct c end;
    by intros [= <-].
Qed.

(** C8 (amended): the applied page is 1 after every [handleSort], after
    every [applyFilters] that is not rejected, and after every URL preset
    that carries [call_type] or [period]; an [applyFilters] that is
    rejected, for either reason, leaves the whole state as it was, the
    applied page included. *)
Theorem page_reset (adm : option Admin) (s : State) :
  (∀ column, get (filters (handleSort column s)) "page" = JNum 1)
  ∧ (∀ s', applyFilters adm s = (s', None) → get (filters s') "page" = JNum 1)
  ∧ (∀ now callType period,
       param_truthy callType || param_truthy period = true →
       get (filters (urlEffect now adm callType period s)) "page" = JNum 1)
  ∧ (∀ s' msg, applyFilters adm s = (s', Some msg) →
       s' = s ∧ get (filters s') "page" = get (filters s) "page").
Proof.
  repeat split.
  - intros column. apply get_insert_eq.
  - intros s' (pending & ->)%applyFilters_accepted. apply get_insert_eq.
  - intros now callType period Hguard. unfold urlEffect. rewrite Hguard.
    rewrite applyUrlPreset_filters, get_spread_absent.
    + apply getInitialFilters_page.
    + by apply presetPartial_lookup.
  - by apply (applyFilters_rejected adm s s' msg).
  - by rewrite (applyFilters_rejected adm s s' msg).
Qed.

Lemma page_reset_witness :
  let s := (step (Some Samples.root) (ClickNext Samples.threePages)
              (initialState (Some Samples.root))).1 in
  let staged := handleFilterChange "time_to" (JStr "18:00") s in
  get (filters s) "page" = JNum 2
  ∧ get (filters (applyFilters (Some Samples.root) s).1) "page" = JNum 1
  ∧ get (filters (urlEffect Samples.aTuesday (Some Samples.root)
                    (Some "missed") None s)) "page" = JNum 1
  ∧ applyFilters (Some Samples.root) staged
    = (staged, Some "Please select a date when using time filters")
  ∧ get (filters staged) "page" = JNum 2.
Proof.
  intros s staged. split; [reflexivity|]. split; [|split; [|split]].
  - apply (proj1 (proj2 (page_reset (Some Samples.root) s))). reflexivity.
  - apply (proj1 (proj2 (proj2 (page_reset (Some Samples.root) s)))). reflexivity.
  - pose proof (proj2 (proj2 (proj2 (page_reset (Some Samples.root) staged)))
                  (applyFilters (Some Samples.root) staged).1
                  "Please select a date when using time filters" eq_refl)
      as [Hsame _].
    rewrite <- Hsame at 2. reflexivity.
  - reflexivity.
Defined.

(* ===================================================================== *)
(** ** URL presets                                                        *)
(* ===================================================================== *)

(** C9 (as stated, refuted): a preset that carries neither a call type
    nor a period is not merged over the base filters.  After two sort
    clicks and a step to page 2, the effect with an empty preset leaves
    the applied set as it was: sorted and on page 2, where the base has no
    sort and page 1. *)
Lemma empty_preset_keeps_applied_counterexample :
  let s := run (Some Samples.root)
             [HandleSort "call_duration"; ClickNext Samples.threePages]
             (initialState (Some Samples.root)) in
  presetPartial Samples.aTuesday None None = ∅
  ∧ filters (urlEffect Samples.aTuesday (Some Samples.root) None None s) = filters s
  ∧ get (filters (urlEffect Samples.aTuesday (Some Samples.root) None None s)) "page"
    = JNum 2
  ∧ get (filters (urlEffect Samples.aTuesday (Some Samples.root) None None s)) "sort_by"
    = JStr "call_duration"
  ∧ filters (urlEffect Samples.aTuesday (Some Samples.root) None None s)
    ≠ spread (getInitialFilters (Some Samples.root))
        (presetPartial Samples.aTuesday None None).
Proof.
  intros s. split; [reflexivity|]. split; [reflexivity|].
  split; [reflexivity|]. split; [reflexivity|].
  intros Heq. apply (f_equal (λ f, get f "page")) in Heq. discriminate Heq.
Qed.

(** C9 (amended): a preset that carries [call_type] or [period] is merged
    over the initial (base) filters, so the applied set does not depend on
    what was applied before; a preset that carries neither changes
    nothing, the applied filters stay as they were; in both cases running
    the effect again with the same parameters changes nothing. *)
Theorem url_preset_idempotent (now : Z) (adm : option Admin)
    (callType period : option string) (s : State) :
  (param_truthy callType || param_truthy period = true →
     filters (urlEffect now adm callType period s)
       = spread (getInitialFilters adm) (presetPartial now callType period)
     ∧ ∀ s0, filters (urlEffect now adm callType period s0)
             = filters (urlEffect now adm callType period s))
  ∧ (param_truthy callType || param_truthy period = false →
       urlEffect now adm callType period s = s)
  ∧ urlEffect now adm callType period (urlEffect now adm callType period s)
    = urlEffect now adm callType period s.
Proof.
  unfold urlEffect.
  destruct (param_truthy callType || param_truthy period) eqn:Hguard.
  - split; [intros _; split|split].
    + apply applyUrlPreset_filters.
    + intros s0. by rewrite !applyUrlPreset_filters.
    + discriminate.
    + reflexivity.
  - split; [discriminate|split; reflexivity].
Qed.

Lemma url_preset_idempotent_witness :
  let s := handleSort "call_type" (initialState (Some Samples.trainee42)) in
  let once := urlEffect Samples.aTuesday (Some Samples.trainee42)
                (Some "missed") (Some "weekly") s in
  filters once
    = spread (getInitialFilters (Some Samples.trainee42))
        (presetPartial Samples.aTuesday (Some "missed") (Some "weekly"))
  ∧ urlEffect Samples.aTuesday (Some Samples.trainee42)
      (Some "missed") (Some "weekly") once = once.
Proof.
  intros s once. split.
  - apply (proj1 (url_preset_idempotent Samples.aTuesday
                    (Some Samples.trainee42) (Some "missed") (Some "weekly") s)).
    reflexivity.
  - apply (proj2 (proj2 (url_preset_idempotent Samples.aTuesday
                    (Some Samples.trainee42) (Some "missed") (Some "weekly") s))).
Defined.

(* ===================================================================== *)
(** ** Role-forced scope                                                  *)
(* ===================================================================== *)

Lemma forcedScope_cases a key allowed :
  forcedScope a = Some (key, allowed) →
  (admin_role a = manager ∧ key = "branch_id"
   ∧ ∃ b, branch_truthy a = Some b ∧ allowed = [b])
  ∨ (admin_role a = trainee ∧ key = "user_id"
     ∧ assigned_nonempty a = Some allowed).
Proof.
  unfold forcedScope.
  destruct (admin_role a); [discriminate| |].
  - destruct (branch_truthy a) as [b|]; [|discriminate].
    intros [= <- <-]. left. eauto.
  - destruct (assigned_nonempty a) as [ids|]; [|discriminate].
    intros [= <- <-]. right. eauto.
Qed.

Lemma assigned_nonempty_available a ids :
  admin_role a = trainee → assigned_nonempty a = Some ids →
  availableUserIds (Some a) = ids ∧ ids ≠ [] ∧ ∃ x, first ids = JNum x ∧ x ∈ ids.
Proof.
  destruct a as [i r br asg]. unfold assigned_nonempty. simpl. intros ->.
  destruct asg as [[|x l]|]; try discriminate. intros [= <-].
  repeat split; [done|]. exists x. split; [done|]. apply list_elem_of_here.
Qed.

(** What [applyFilters] does for a manager with a branch. *)
Lemma applyFilters_manager a b s :
  admin_role a = manager → branch_truthy a = Some b →
  applyFilters (Some a) s
    = (s, Some "Please select a date when using time filters")
  ∨ applyFilters (Some a) s
    = (mkState (<["page" := JNum 1]>
                  (spread (filters s) (<["branch_id" := JNum b]> (pendingFilters s))))
               (<["branch_id" := JNum b]> (pendingFilters s)) (search s), None).
Proof.
  intros Hrole Hb. unfold applyFilters.
  destruct (_ && _ && _); [by left|right].
  simpl. rewrite Hrole, Hb. reflexivity.
Qed.

(** What [applyFilters] does for a trainee with assigned users. *)
Lemma applyFilters_trainee a ids s :
  admin_role a = trainee → assigned_nonempty a = Some ids →
  (∃ msg, applyFilters (Some a) s = (s, Some msg))
  ∨ (truthy (get (pendingFilters s) "user_id") = false
     ∧ applyFilters (Some a) s
       = (mkState (<["page" := JNum 1]>
                     (spread (filters s) (<["user_id" := first ids]> (pendingFilters s))))
                  (<["user_id" := first ids]> (pendingFilters s)) (search s), None))
  ∨ (truthy (get (pendingFilters s) "user_id") = true
     ∧ includes ids (get (pendingFilters s) "user_id") = true
     ∧ applyFilters (Some a) s
       = (mkState (<["page" := JNum 1]> (spread (filters s) (pendingFilters s)))
                  (pendingFilters s) (search s), None)).
Proof.
  intros Hrole Hids.
  destruct (assigned_nonempty_available a ids Hrole Hids) as (Havail & Hne & _).
  unfold applyFilters. rewrite Havail.
  destruct (_ && _ && _); [left; eauto|].
  simpl. rewrite Hrole. simpl.
  rewrite bool_decide_eq_true_2 by done. simpl.
  destruct (truthy (get (pendingFilters s) "user_id")) eqn:Hu; simpl.
  - destruct (includes ids (get (pendingFilters s) "user_id")) eqn:Hin; simpl.
    + right; right. done.
    + left. eauto.
  - right; left. done.
Qed.

Lemma forced_key_names a key allowed :
  forcedScope a = Some (key, allowed) → key = "branch_id" ∨ key = "user_id".
Proof. intros [(_ & -> & _)|(_ & -> & _)]%forcedScope_cases; auto. Qed.

Lemma scopeKept_insert a (f : JsObj) k v :
  k ≠ "branch_id" → k ≠ "user_id" → scopeKept a f → scopeKept a (<[k := v]> f).
Proof.
  intros Hb Hu Hkept key allowed Hforced.
  destruct (Hkept key allowed Hforced) as (u & Hin & Hget).
  exists u. split; [done|].
  rewrite get_insert_ne; [done|].
  destruct (forced_key_names a key allowed Hforced) as [-> | ->]; done.
Qed.

Lemma getInitialFilters_forced a key allowed :
  forcedScope a = Some (key, allowed) →
  get (getInitialFilters (Some a)) key = first allowed
  ∧ ∃ u, u ∈ allowed ∧ first allowed = JNum u.
Proof.
  intros [(Hrole & -> & b & Hb & ->)|(Hrole & -> & Hids)]%forcedScope_cases.
  - unfold getInitialFilters. rewrite Hrole, Hb. simpl. split; [reflexivity|].
    exists b. split; [apply list_elem_of_here|done].
  - destruct (assigned_nonempty_available a allowed Hrole Hids) as (_ & _ & x & Hx & Hin).
    unfold getInitialFilters. rewrite Hrole, Hids. simpl. split; [|eauto].
    destruct (branch_truthy a); apply get_insert_eq.
Qed.

Lemma getInitialFilters_scopeKept a : scopeKept a (getInitialFilters (Some a)).
Proof.
  intros key allowed Hforced.
  destruct (getInitialFilters_forced a key allowed Hforced) as (Hget & u & Hin & Hu).
  exists u. split; [done|]. by rewrite Hget.
Qed.

Lemma applyFilters_scopeKept a s :
  scopeKept a (filters s) → scopeKept a (filters (applyFilters (Some a) s).1).
Proof.
  intros Hkept key allowed Hforced.
  destruct (forcedScope_cases a key allowed Hforced)
    as [(Hrole & -> & b & Hb & ->)|(Hrole & -> & Hids)].
  - destruct (applyFilters_manager a b s Hrole Hb) as [-> | ->]; simpl.
    + by apply Hkept.
    + exists b. split; [apply list_elem_of_here|].
      rewrite get_insert_ne by done.
      apply get_spread_own, lookup_insert_eq.
  - destruct (applyFilters_trainee a allowed s Hrole Hids)
      as [(msg & ->)|[(Hu & ->)|(Hu & Hin & ->)]]; simpl.
    + by apply Hkept.
    + destruct (assigned_nonempty_available a allowed Hrole Hids)
        as (_ & _ & x & Hx & Hxin).
      exists x. split; [done|].
      rewrite get_insert_ne by done. rewrite <- Hx.
      apply get_spread_own, lookup_insert_eq.
    + apply includes_elem in Hin as (n & Hn & Hnin).
      exists n. split; [done|].
      rewrite get_insert_ne by done.
      by apply get_spread_own, get_defined.
Qed.

Lemma applyUrlPreset_scopeKept now a callType period s :
  scopeKept a (filters (applyUrlPreset now (Some a) callType period s)).
Proof.
  intros key allowed Hforced.
  destruct (getInitialFilters_scopeKept a key allowed Hforced) as (u & Hin & Hget).
  exists u. split; [done|].
  rewrite applyUrlPreset_filters, get_spread_absent; [done|].
  destruct (forced_key_names a key allowed Hforced) as [-> | ->];
    by apply presetPartial_lookup.
Qed.

Lemma step_scopeKept a act s :
  scopeKept a (filters s) → scopeKept a (filters (step (Some a) act s).1).
Proof.
  intros Hkept. destruct act; simpl; try done.
  - by repeat apply scopeKept_insert.
  - by apply applyFilters_scopeKept.
  - apply getInitialFilters_scopeKept.
  - by repeat apply scopeKept_insert.
  - unfold clickPrevious. destruct (_ && _); [|done]. by apply scopeKept_insert.
  - unfold clickNext. destruct (_ && _); [|done]. by apply scopeKept_insert.
  - unfold urlEffect. destruct (_ || _); [|done]. apply applyUrlPreset_scopeKept.
Qed.

Lemma run_scopeKept a acts s :
  scopeKept a (filters s) → scopeKept a (filters (run (Some a) acts s)).
Proof.
  revert s. induction acts as [|act acts IH]; intros s Hkept; simpl; [done|].
  by apply IH, step_scopeKept.
Qed.

Lemma applyFilters_forced_default a key allowed s s' :
  forcedScope a = Some (key, allowed) →
  applyFilters (Some a) s = (s', None) →
  truthy (get (pendingFilters s) key) = false →
  get (filters s') key = first allowed.
Proof.
  intros Hforced Happly Hunset.
  destruct (forcedScope_cases a key allowed Hforced)
    as [(Hrole & -> & b & Hb & ->)|(Hrole & -> & Hids)].
  - destruct (applyFilters_manager a b s Hrole Hb) as [H|H];
      rewrite H in Happly; [discriminate|]. injection Happly as <-. simpl.
    rewrite get_insert_ne by done. apply get_spread_own, lookup_insert_eq.
  - destruct (applyFilters_trainee a allowed s Hrole Hids)
      as [(msg & H)|[(Hu & H)|(Hu & _)]]; [| |congruence];
      rewrite H in Happly; [discriminate|]. injection Happly as <-. simpl.
    rewrite get_insert_ne by done. apply get_spread_own, lookup_insert_eq.
Qed.

(** A trainee assigned to user 42 starts on that user, cannot apply another
    one, and falls back to 42 when no user is staged. *)
Example trainee_scope_samples :
  get (getInitialFilters (Some Samples.trainee42)) "user_id" = JNum 42
  ∧ (applyFilters (Some Samples.trainee42)
       (handleFilterChange "user_id" (JNum 99)
          (initialState (Some Samples.trainee42)))).2
    = Some "You can only view call logs for your assigned users"
  ∧ get (filters (applyFilters (Some Samples.trainee42)
                    (handleFilterChange "user_id" JUndef
                       (initialState (Some Samples.trainee42)))).1) "user_id"
    = JNum 42.
Proof. repeat split; reflexivity. Qed.

(** C3 (as stated, refuted): a trainee without assigned users stages agent
    5 and applies; the applied [user_id] is 5, which is not an assigned id. *)
Lemma trainee_without_assignments_counterexample :
  assigned_user_ids Samples.traineeNone = Some []
  ∧ step (Some Samples.traineeNone) ApplyFilters
      (step (Some Samples.traineeNone) (HandleFilterChange "user_id" (JNum 5))
         (initialState (Some Samples.traineeNone))).1
    = (mkState (<["user_id" := JNum 5]> (getInitialFilters (Some Samples.traineeNone)))
               {[ "user_id" := JNum 5 ]} "", None).
Proof. split; reflexivity. Qed.

(** C3 (amended): for a manager whose [branch_id] is set and a trainee
    whose [assigned_user_ids] is not empty, after any sequence of page
    events the applied filters carry the forced key with an allowed value
    (the manager's own branch, one of the trainee's assigned users); an
    accepted [applyFilters] with no staged value for the key sets it to the
    first allowed value; [clearFilters] restores the initial filters, which
    carry the first allowed value. *)
Theorem forced_scope_kept (a : Admin) (acts : list Action)
    (key : string) (allowed : list Z) :
  forcedScope a = Some (key, allowed) →
  let s := run (Some a) acts (initialState (Some a)) in
  (∃ u, u ∈ allowed ∧ get (filters s) key = JNum u)
  ∧ (∀ s', applyFilters (Some a) s = (s', None) →
           truthy (get (pendingFilters s) key) = false →
           get (filters s') key = first allowed)
  ∧ clearFilters (Some a) s = initialState (Some a)
  ∧ get (getInitialFilters (Some a)) key = first allowed.
Proof.
  intros Hforced s. repeat split.
  - apply (run_scopeKept a acts (initialState (Some a))); [|done].
    apply getInitialFilters_scopeKept.
  - intros s'. by apply applyFilters_forced_default.
  - by apply getInitialFilters_forced.
Qed.

Lemma forced_scope_kept_witness :
  let s := run (Some Samples.manager7)
             [HandleFilterChange "branch_id" (JNum 9); ApplyFilters]
             (initialState (Some Samples.manager7)) in
  forcedScope Samples.manager7 = Some ("branch_id", [7])
  ∧ ∃ u, u ∈ [7] ∧ get (filters s) "branch_id" = JNum u.
Proof.
  intros s. split; [reflexivity|].
  apply (forced_scope_kept Samples.manager7
           [HandleFilterChange "branch_id" (JNum 9); ApplyFilters]
           "branch_id" [7]).
  reflexivity.
Defined.

(* ===================================================================== *)
(** ** Staged numeric values                                              *)
(* ===================================================================== *)

Lemma queryParams_lookup (f : JsObj) k :
  queryParams f !! k = if decide (get f k = JUndef) then None else f !! k.
Proof.
  unfold queryParams, get.
  destruct (f !! k) as [v|] eqn:Hk; simpl.
  - destruct (decide (v = JUndef)) as [->|Hv].
    + apply map_lookup_filter_None. right. intros w Hw. simpl. congruence.
    + apply map_lookup_filter_Some. done.
  - apply map_lookup_filter_None. by left.
Qed.

Lemma assigned_empty_available a :
  admin_role a = trainee → assigned_nonempty a = None →
  availableUserIds (Some a) = [].
Proof.
  destruct a as [i r br asg]. unfold assigned_nonempty. simpl. intros ->.
  by destruct asg as [[|x l]|].
Qed.

(** The staged value of a key the role does not force reaches the applied
    set as staged. *)
Lemma applyFilters_keeps_staged adm s s' key :
  roleForces adm key = false → key ≠ "page" →
  applyFilters adm s = (s', None) →
  ∀ v, pendingFilters s !! key = Some v → get (filters s') key = v.
Proof.
  intros Hfree Hpage Happly v Hv.
  assert (Hfinal : pendingFilters s' !! key = Some v
                   ∧ filters s' = <["page" := JNum 1]> (spread (filters s) (pendingFilters s'))).
  { revert Happly. unfold applyFilters.
    destruct (_ && _ && _); [discriminate|].
    destruct (_ && _ && _) eqn:Hreject; [discriminate|].
    intros [= <-]. simpl. split; [|done].
    destruct adm as [a|]; [|done].
    unfold roleForces, forcedScope in Hfree. unfold role_is.
    destruct (admin_role a) eqn:Hrole.
    + by rewrite bool_decide_eq_false_2.
    + rewrite bool_decide_eq_false_2 by done. simpl.
      destruct (branch_truthy a) as [b|]; [|done].
      apply String.eqb_neq in Hfree. rewrite lookup_insert_ne by done. done.
    + rewrite bool_decide_eq_true_2 by done.
      destruct (assigned_nonempty a) as [ids|] eqn:Hids.
      * apply String.eqb_neq in Hfree.
        match goal with |- context [if ?c then _ else _] => destruct c end;
          [rewrite lookup_insert_ne by done|]; done.
      * rewrite (assigned_empty_available a Hrole Hids). done. }
  destruct Hfinal as (Hp & ->).
  rewrite get_insert_ne by done. by apply get_spread_own.
Qed.

(** C6 (as stated, refuted): a staged [duration_min] of -5 is applied as
    it is and is part of the query parameters. *)
Lemma negative_duration_applied_counterexample :
  let staged := handleFilterChange "duration_min" (JNum (-5))
                  (initialState (Some Samples.root)) in
  (applyFilters (Some Samples.root) staged).2 = None
  ∧ queryParams (filters (applyFilters (Some Samples.root) staged).1)
      !! "duration_min" = Some (JNum (-5)).
Proof. split; reflexivity. Qed.

(** C6 (amended): a value staged for a numeric field that the role does not
    force is stored as [undefined] when it is [NaN], zero or empty, and the
    query parameters after an accepted [applyFilters] then have no entry
    for the field; a negative value is kept as staged and is sent. *)
Theorem falsy_numeric_absent (adm : option Admin) (s s' : State)
    (key : string) (v : JsVal) :
  key ∈ numericFields →
  roleForces adm key = false →
  applyFilters adm (handleFilterChange key v s) = (s', None) →
  get (filters s') key = or_else v JUndef
  ∧ (truthy v = false → queryParams (filters s') !! key = None)
  ∧ (∀ n, v = JNum n → n < 0 → queryParams (filters s') !! key = Some (JNum n)).
Proof.
  intros Hkey Hfree Happly.
  assert (Hpage : key ≠ "page").
  { intros ->. unfold numericFields in Hkey.
    rewrite !elem_of_cons, elem_of_nil in Hkey. intuition discriminate. }
  assert (Hget : get (filters s') key = or_else v JUndef).
  { apply (applyFilters_keeps_staged adm _ s' key Hfree Hpage Happly).
    simpl. unfold spread. apply lookup_union_Some_l, lookup_singleton_eq. }
  split; [done|split].
  - intros Hfalsy. rewrite queryParams_lookup, Hget.
    unfold or_else. rewrite Hfalsy. by rewrite decide_True.
  - intros n -> Hneg. rewrite queryParams_lookup, Hget.
    assert (Hkeep : or_else (JNum n) JUndef = JNum n).
    { unfold or_else. simpl. destruct (Z.eqb_spec n 0); [lia|done]. }
    rewrite Hkeep, decide_False by done.
    apply get_defined; [by rewrite Hget|done].
Qed.

Lemma falsy_numeric_absent_witness :
  let s' := (applyFilters (Some Samples.manager7)
               (handleFilterChange "duration_max" JNaN
                  (initialState (Some Samples.manager7)))).1 in
  "duration_max" ∈ numericFields
  ∧ get (filters s') "duration_max" = JUndef
  ∧ queryParams (filters s') !! "duration_max" = None.
Proof.
  intros s'.
  assert (Hin : "duration_max" ∈ numericFields).
  { unfold numericFields. apply list_elem_of_further, list_elem_of_here. }
  split; [exact Hin|].
  destruct (falsy_numeric_absent (Some Samples.manager7)
              (initialState (Some Samples.manager7)) s' "duration_max" JNaN
              Hin eq_refl eq_refl) as (Hget & Habsent & _).
  split; [exact Hget|]. apply Habsent. reflexivity.
Defined.

(* ===================================================================== *)
(** * Further properties of the call logs page                            *)
(* ===================================================================== *)

Import CallLogsTable.

(** ** The applied page *)

Lemma applied_page_step adm act s p :
  get (filters s) "page" = JNum p → 1 ≤ p →
  ∃ p', get (filters (step adm act s).1) "page" = JNum p' ∧ 1 ≤ p'.
Proof.
  intros Hpage Hpos.
  assert (Hor : or_else (JNum p) (JNum 1) = JNum p).
  { unfold or_else. simpl. destruct (Z.eqb_spec p 0); [lia|done]. }
  destruct act; simpl; eauto.
  - exists 1. split; [apply get_insert_eq|lia].
  - destruct (applyFilters adm s) as [s' [msg|]] eqn:Happly.
    + exists p. split; [|done]. revert Happly. unfold applyFilters.
      repeat match goal with |- context [if ?c then _ else _] => destruct c end;
        by intros [= <- _].
    + apply applyFilters_accepted in Happly as (pending & ->).
      exists 1. split; [apply get_insert_eq|lia].
  - exists 1. split; [apply getInitialFilters_page|lia].
  - exists 1. split; [apply get_insert_eq|lia].
  - unfold clickPrevious, previousDisabled. rewrite Hpage. simpl.
    destruct (pagerShown q); simpl; [|eauto].
    destruct (Z.eqb_spec p 1); simpl; [eauto|].
    exists (p - 1). rewrite Hor. simpl. split; [apply get_insert_eq|lia].
  - unfold clickNext, nextDisabled. rewrite Hpage. simpl.
    destruct (pagerShown q); simpl; [|eauto].
    destruct (p =? last_page q); simpl; [eauto|].
    exists (p + 1). rewrite Hor. simpl. split; [apply get_insert_eq|lia].
  - unfold urlEffect. destruct (_ || _); [|eauto].
    exists 1. split; [|lia].
    rewrite applyUrlPreset_filters, get_spread_absent.
    + apply getInitialFilters_page.
    + by apply presetPartial_lookup.
Qed.

(** X1: whatever the user does on the page, in whatever order and
    whatever the server reported as the last page, the applied page is a
    whole number of at least 1. *)
Theorem applied_page_at_least_one (adm : option Admin) (acts : list Action) :
  ∃ p, get (filters (run adm acts (initialState adm))) "page" = JNum p ∧ 1 ≤ p.
Proof.
  assert (Hrun : ∀ acts s p, get (filters s) "page" = JNum p → 1 ≤ p →
            ∃ p', get (filters (run adm acts s)) "page" = JNum p' ∧ 1 ≤ p').
  { clear acts. induction acts as [|act acts IH]; intros s p Hpage Hpos; simpl.
    - eauto.
    - destruct (applied_page_step adm act s p Hpage Hpos) as (p' & Hp' & Hpos').
      by apply (IH _ p'). }
  apply (Hrun acts _ 1); [apply getInitialFilters_page|lia].
Qed.

(** ** Sorting *)

Lemma strict_eq_JStr v c : strict_eq v (JStr c) = true ↔ v = JStr c.
Proof.
  destruct v as [| |n|s]; simpl; try (split; [discriminate|by intros [=]]).
  rewrite String.eqb_eq. split; [by intros ->|by intros [=]].
Qed.

Lemma handleSort_reads s column :
  get (filters (handleSort column s)) "sort_by" = JStr column
  ∧ get (filters (handleSort column s)) "sort_order" = JStr (newSortOrder s column).
Proof.
  unfold handleSort, newSortOrder. simpl. split.
  - rewrite !get_insert_ne by done. apply get_insert_eq.
  - rewrite get_insert_ne by done. apply get_insert_eq.
Qed.

Lemma sort_inserts_absorb (f : JsObj) (c : string) (o o' : string) :
  <["page" := JNum 1]> (<["sort_order" := JStr o']> (<["sort_by" := JStr c]>
    (<["page" := JNum 1]> (<["sort_order" := JStr o]> (<["sort_by" := JStr c]> f)))))
  = <["page" := JNum 1]> (<["sort_order" := JStr o']> (<["sort_by" := JStr c]> f)).
Proof.
  apply map_eq. intros k. rewrite !lookup_insert.
  repeat case_decide; done.
Qed.

(** X2: a first click on a column sorts it ascending; each further click on
    the same column flips between ascending and descending, so that three
    clicks leave the page as one click does; a click on another column
    starts ascending again.  The staged filters and the search text are
    never touched. *)
Theorem sort_click_cycle (s : State) (column : string) :
  let once := handleSort column s in
  let twice := handleSort column once in
  (get (filters s) "sort_by" ≠ JStr column →
     get (filters once) "sort_order" = JStr "asc")
  ∧ get (filters twice) "sort_order"
    = JStr (if strict_eq (get (filters once) "sort_order") (JStr "asc")
            then "desc" else "asc")
  ∧ handleSort column twice = once
  ∧ (∀ other, other ≠ column →
       get (filters (handleSort other once)) "sort_by" = JStr other
       ∧ get (filters (handleSort other once)) "sort_order" = JStr "asc")
  ∧ pendingFilters twice = pendingFilters s ∧ search twice = search s.
Proof.
  intros once twice.
  destruct (handleSort_reads s column) as (Hby & Hord).
  fold once in Hby, Hord.
  assert (Hord2 : newSortOrder once column
                  = if strict_eq (get (filters once) "sort_order") (JStr "asc")
                    then "desc" else "asc").
  { unfold newSortOrder. rewrite Hby. simpl. by rewrite String.eqb_refl. }
  repeat split.
  - intros Hnew. rewrite Hord. unfold newSortOrder.
    destruct (strict_eq (get (filters s) "sort_by") (JStr column)) eqn:Heq; [|done].
    by apply strict_eq_JStr in Heq.
  - unfold twice. rewrite (proj2 (handleSort_reads once column)). by rewrite Hord2.
  - destruct (handleSort_reads once column) as (Hby2 & Hord2').
    fold twice in Hby2, Hord2'. rewrite Hord2, Hord in Hord2'.
    assert (Hthird : newSortOrder twice column = newSortOrder s column).
    { unfold newSortOrder at 1. rewrite Hby2, Hord2'. simpl. rewrite String.eqb_refl.
      unfold newSortOrder.
      destruct (strict_eq (get (filters s) "sort_by") (JStr column)); [|done].
      by destruct (strict_eq (get (filters s) "sort_order") (JStr "asc")). }
    unfold handleSort at 1. fold (newSortOrder twice column). rewrite Hthird.
    unfold twice, once, handleSort. simpl. f_equal.
    rewrite sort_inserts_absorb. apply sort_inserts_absorb.
  - apply handleSort_reads.
  - rewrite (proj2 (handleSort_reads once other)). unfold newSortOrder.
    rewrite Hby. simpl.
    destruct (String.eqb_spec column other) as [->|]; [done|done].
Qed.

Lemma sort_click_cycle_witness :
  get (filters (initialState None)) "sort_by" ≠ JStr "duration"
  ∧ get (filters (handleSort "duration" (initialState None))) "sort_order"
    = JStr "asc".
Proof.
  split; [discriminate|].
  pose proof (sort_click_cycle (initialState None) "duration") as H.
  cbv zeta in H. destruct H as [H _]. apply H. discriminate.
Defined.

(** X3: after a click on a column header, that column shows the arrow of
    the order now applied, and every other column shows the neutral icon. *)
Theorem sort_icon_follows_click (s : State) (column : string) :
  let sorted := handleSort column s in
  getSortIcon sorted column
    = (if String.eqb (newSortOrder s column) "asc" then ArrowUp else ArrowDown)
  ∧ getSortIcon sorted column ≠ ArrowUpDown
  ∧ ∀ other, other ≠ column → getSortIcon sorted other = ArrowUpDown.
Proof.
  intros sorted. destruct (handleSort_reads s column) as (Hby & Hord).
  fold sorted in Hby, Hord.
  assert (Hicon : getSortIcon sorted column
            = if String.eqb (newSortOrder s column) "asc" then ArrowUp else ArrowDown).
  { unfold getSortIcon. rewrite Hby, Hord. simpl. by rewrite String.eqb_refl. }
  split; [exact Hicon|split].
  - rewrite Hicon. by destruct (String.eqb _ _).
  - intros other Hother. unfold getSortIcon. rewrite Hby. simpl.
    destruct (String.eqb_spec column other) as [->|]; done.
Qed.

Lemma sort_icon_follows_click_witness :
  "caller_name" ≠ "duration"
  ∧ getSortIcon (handleSort "duration" (initialState None)) "caller_name"
    = ArrowUpDown.
Proof.
  split; [discriminate|].
  pose proof (sort_icon_follows_click (initialState None) "duration") as H.
  cbv zeta in H. destruct H as (_ & _ & H). apply H. discriminate.
Defined.

(** ** Durations *)

Lemma string_length_append (a b : string) :
  String.length (a +:+ b) = (String.length a + String.length b)%nat.
Proof.
  induction a as [|c a IH]; cbv [String.append]; fold String.append; simpl; [done|].
  by rewrite IH.
Qed.

Lemma append_inj_suffix (a a' b b' : string) :
  String.length b = String.length b' → a +:+ b = a' +:+ b' → a = a' ∧ b = b'.
Proof.
  revert a'. induction a as [|c a IH]; intros [|c' a'] Hlen Heq;
    cbv [String.append] in Heq; fold String.append in Heq.
  - done.
  - rewrite Heq in Hlen. cbn [String.length] in Hlen.
    rewrite string_length_append in Hlen. lia.
  - rewrite <- Heq in Hlen. cbn [String.length] in Hlen.
    rewrite string_length_append in Hlen. lia.
  - injection Heq as -> Heq. destruct (IH a' Hlen Heq) as [-> ->]. done.
Qed.

Lemma two_digit_seconds r :
  0 ≤ r < 60 → String.length (JsDate.padStart2 (pretty r)) = 2%nat.
Proof.
  intros Hr.
  assert (Hall : forallb (λ r, Nat.eqb (String.length (JsDate.padStart2 (pretty r))) 2)
                   (seqZ 0 60) = true) by (vm_compute; reflexivity).
  rewrite forallb_forall in Hall.
  apply Nat.eqb_eq, Hall, list_elem_of_In, elem_of_seqZ. lia.
Qed.

Lemma two_digit_seconds_inj r r' :
  0 ≤ r < 60 → 0 ≤ r' < 60 →
  JsDate.padStart2 (pretty r) = JsDate.padStart2 (pretty r') → r = r'.
Proof.
  intros Hr Hr' Heq.
  assert (Hall : forallb (λ r, forallb (λ r',
                   implb (String.eqb (JsDate.padStart2 (pretty r))
                                     (JsDate.padStart2 (pretty r')))
                         (r =? r')) (seqZ 0 60)) (seqZ 0 60) = true)
    by (vm_compute; reflexivity).
  rewrite forallb_forall in Hall.
  assert (Hin : In r (seqZ 0 60)) by (apply list_elem_of_In, elem_of_seqZ; lia).
  specialize (Hall r Hin). rewrite forallb_forall in Hall.
  assert (Hin' : In r' (seqZ 0 60)) by (apply list_elem_of_In, elem_of_seqZ; lia).
  specialize (Hall r' Hin'). rewrite Heq, String.eqb_refl in Hall.
  by apply Z.eqb_eq.
Qed.

(** The seconds as the code prints them: two decimal digits. *)
Lemma padded_seconds r :
  0 ≤ r < 60 →
  JsDate.padStart2 (pretty r)
  = if r <? 10 then "0" +:+ pretty r else pretty r.
Proof.
  intros Hr.
  assert (Hall : forallb (λ r, String.eqb (JsDate.padStart2 (pretty r))
                                 (if r <? 10 then "0" +:+ pretty r else pretty r))
                   (seqZ 0 60) = true) by (vm_compute; reflexivity).
  rewrite forallb_forall in Hall.
  apply String.eqb_eq, Hall, list_elem_of_In, elem_of_seqZ. lia.
Qed.

(** X4: for whole seconds from 0 to [MAX_SAFE_INTEGER] the duration text
    is the whole minutes, a colon and the remaining seconds written with
    two digits (a leading zero below ten), and two different durations
    never get the same text. *)
Theorem formatDuration_faithful (a b : Z) :
  0 ≤ a ≤ MAX_SAFE_INTEGER → 0 ≤ b ≤ MAX_SAFE_INTEGER →
  formatDuration a
  = pretty (a / 60) +:+ ":"
    +:+ (if a `mod` 60 <? 10 then "0" +:+ pretty (a `mod` 60) else pretty (a `mod` 60))
  ∧ String.length (formatDuration a) = (String.length (pretty (a / 60)%Z) + 3)%nat
  ∧ (formatDuration a = formatDuration b → a = b).
Proof.
  intros [Ha _] [Hb _].
  assert (Hra : 0 ≤ Z.rem a 60 < 60).
  { rewrite Z.rem_mod_nonneg by lia. apply Z.mod_pos_bound. lia. }
  assert (Hrb : 0 ≤ Z.rem b 60 < 60).
  { rewrite Z.rem_mod_nonneg by lia. apply Z.mod_pos_bound. lia. }
  split; [|split].
  - unfold formatDuration. rewrite (padded_seconds _ Hra).
    by rewrite Z.rem_mod_nonneg by lia.
  - unfold formatDuration. rewrite !string_length_append.
    rewrite (two_digit_seconds _ Hra). simpl. lia.
  - unfold formatDuration. intros Heq.
    apply append_inj_suffix in Heq as [Hmin Hsec].
    + apply (inj pretty) in Hmin. apply (inj (String.append ":")) in Hsec.
      apply two_digit_seconds_inj in Hsec; [|done|done].
      rewrite !Z.rem_mod_nonneg in Hsec by lia.
      rewrite (Z.div_mod a 60), (Z.div_mod b 60) by lia. congruence.
    + rewrite !string_length_append. by rewrite !two_digit_seconds.
Qed.

Lemma formatDuration_faithful_witness :
  0 ≤ 125 ≤ MAX_SAFE_INTEGER ∧ 0 ≤ 65 ≤ MAX_SAFE_INTEGER
  ∧ formatDuration 125 = "2:05"
  ∧ (formatDuration 125 = formatDuration 65 → (125 : Z) = 65).
Proof.
  assert (Ha : 0 ≤ 125 ≤ MAX_SAFE_INTEGER) by (vm_compute; split; discriminate).
  assert (Hb : 0 ≤ 65 ≤ MAX_SAFE_INTEGER) by (vm_compute; split; discriminate).
  split; [exact Ha|]. split; [exact Hb|].
  destruct (formatDuration_faithful 125 65 Ha Hb) as (Htext & _ & Hinj).
  split; [exact Htext|exact Hinj].
Defined.

(** ** Row buttons *)

(** X5: a row never offers both playback and productivity tracking: the
    tracking button is there exactly for missed and rejected calls, which
    show the no-recording notice; details are always offered, deletion
    exactly to a super_admin. *)
Theorem row_buttons (adm : option Admin) (log : CallLog) :
  let actions := rowActions adm log in
  let cell := recordingColumn adm log in
  (productivityTracking actions = true
   ↔ call_type log = "missed" ∨ call_type log = "rejected")
  ∧ (productivityTracking actions = true →
       play cell = false ∧ download cell = false ∧ noRecordingNotice cell = true)
  ∧ viewDetails actions = true
  ∧ (deleteCallLog actions = true ↔ role_is adm super_admin = true).
Proof.
  cbv zeta. unfold rowActions, recordingColumn, shouldShowRecordings,
    Pages.canManageCallLogs. simpl.
  rewrite orb_true_iff, !String.eqb_eq.
  split; [done|]. split; [|done].
  intros [-> | ->]; repeat split; reflexivity.
Qed.

Lemma row_buttons_witness :
  play (recordingColumn (Some Samples.root)
          (mkCallLog "missed" 0 (Some 0) None)) = false.
Proof.
  apply (proj1 (proj2 (row_buttons (Some Samples.root)
                         (mkCallLog "missed" 0 (Some 0) None)))).
  reflexivity.
Defined.

(** ** The Agent dropdown *)

Import FilterDropdowns.

Lemma filteredUsers_sublist adm data user :
  user ∈ filteredUsers adm data → user ∈ data.
Proof.
  unfold filteredUsers.
  destruct (_ && _).
  - rewrite list_elem_of_In, filter_In, <- list_elem_of_In. tauto.
  - destruct adm as [a|]; [|done].
    destruct (admin_role a), (branch_truthy a); try done.
    rewrite list_elem_of_In, filter_In, <- list_elem_of_In. tauto.
Qed.

(** X6: the Agent dropdown offers only users of the data it was given; to
    a trainee with assigned users only assigned users, to a manager with a
    branch only users of that branch; and choosing any offered agent and
    applying is never turned down by the assigned-users check. *)
Theorem offered_agents_are_accepted (adm : option Admin) (data : list User.t)
    (user : User.t) (s : State) :
  user ∈ filteredUsers adm data →
  user ∈ data
  ∧ (∀ a ids, adm = Some a → admin_role a = trainee →
       assigned_nonempty a = Some ids → User.id user ∈ ids)
  ∧ (∀ a b, adm = Some a → admin_role a = manager →
       branch_truthy a = Some b → User.branch_id user = Some b)
  ∧ (applyFilters adm (selectAgent user s)).2
    ≠ Some "You can only view call logs for your assigned users".
Proof.
  intros Hoffered. split; [by eapply filteredUsers_sublist|].
  assert (Hrestricted :
    role_is adm trainee && bool_decide (availableUserIds adm ≠ []) = true →
    includes (availableUserIds adm) (JNum (User.id user)) = true).
  { intros Hr. unfold filteredUsers in Hoffered. rewrite Hr in Hoffered.
    apply list_elem_of_In, filter_In in Hoffered. tauto. }
  split; [|split].
  - intros a ids -> Hrole Hids.
    destruct (assigned_nonempty_available a ids Hrole Hids) as (Havail & Hne & _).
    rewrite Havail in Hrestricted. simpl in Hrestricted. rewrite Hrole in Hrestricted.
    simpl in Hrestricted. rewrite bool_decide_eq_true_2 in Hrestricted by done.
    specialize (Hrestricted eq_refl). by apply bool_decide_eq_true in Hrestricted.
  - intros a b -> Hrole Hb. unfold filteredUsers in Hoffered.
    simpl in Hoffered. rewrite Hrole, Hb in Hoffered. simpl in Hoffered.
    apply list_elem_of_In, filter_In in Hoffered as [_ Hbranch].
    by apply bool_decide_eq_true in Hbranch.
  - unfold applyFilters, selectAgent.
    destruct (_ && _ && _); [done|].
    assert (Hstaged : get (pendingFilters (handleFilterChange "user_id"
                        (JNum (User.id user)) s)) "user_id"
                      = or_else (JNum (User.id user)) JUndef).
    { simpl. apply get_spread_own, lookup_singleton_eq. }
    rewrite Hstaged.
    destruct (role_is adm trainee && bool_decide (availableUserIds adm ≠ []))
      eqn:Hr; [|done].
    unfold or_else.
    destruct (truthy (JNum (User.id user))) eqn:Htruthy.
    + rewrite Htruthy, (Hrestricted eq_refl). done.
    + done.
Qed.

Lemma offered_agents_are_accepted_witness :
  let data := [User.mk 42 (Some 7); User.mk 43 (Some 7)] in
  User.mk 42 (Some 7) ∈ filteredUsers (Some Samples.trainee42) data
  ∧ (applyFilters (Some Samples.trainee42)
       (selectAgent (User.mk 42 (Some 7))
          (initialState (Some Samples.trainee42)))).2
    ≠ Some "You can only view call logs for your assigned users".
Proof.
  intros data.
  assert (Hin : User.mk 42 (Some 7) ∈ filteredUsers (Some Samples.trainee42) data).
  { vm_compute. apply list_elem_of_here. }
  split; [exact Hin|].
  apply (offered_agents_are_accepted (Some Samples.trainee42) data
           (User.mk 42 (Some 7)) (initialState (Some Samples.trainee42)) Hin).
Defined.

(* ===================================================================== *)
(** * Calendar facts behind the preset periods                            *)
(* ===================================================================== *)

Import CalendarParts.

Ltac cases :=
  repeat match goal with |- context [if ?c then _ else _] => destruct c eqn:? end;
  repeat match goal with
         | H : (_ <? _) = true |- _ => apply Z.ltb_lt in H
         | H : (_ <? _) = false |- _ => apply Z.ltb_ge in H
         | H : (_ <=? _) = true |- _ => apply Z.leb_le in H
         | H : (_ <=? _) = false |- _ => apply Z.leb_gt in H
         end.

Lemma civil_roundtrip z :
  JsDate.days_from_civil (JsDate.civil_from_days z).1.1 (JsDate.civil_from_days z).1.2
     (JsDate.civil_from_days z).2 = z.
Proof.
  unfold JsDate.civil_from_days, JsDate.days_from_civil. cbv zeta. simpl.
  cases; Z.div_mod_to_equations; lia.
Qed.

Lemma civil_ranges z :
  1 ≤ (JsDate.civil_from_days z).1.2 ≤ 12 ∧ 1 ≤ (JsDate.civil_from_days z).2 ≤ 31.
Proof.
  unfold JsDate.civil_from_days. cbv zeta. simpl.
  cases; Z.div_mod_to_equations; lia.
Qed.

Lemma first_of_month_checked yoe m :
  0 ≤ yoe < 400 → 1 ≤ m ≤ 12 → first_of_month_ok yoe m = true.
Proof.
  intros Hy Hm.
  assert (Hall : forallb (λ yoe, forallb (first_of_month_ok yoe) (seqZ 1 12))
                   (seqZ 0 400) = true) by (vm_compute; reflexivity).
  rewrite forallb_forall in Hall.
  assert (Hin : In yoe (seqZ 0 400)) by (apply list_elem_of_In, elem_of_seqZ; lia).
  specialize (Hall yoe Hin). rewrite forallb_forall in Hall.
  apply Hall, list_elem_of_In, elem_of_seqZ. lia.
Qed.

Lemma civil_from_era_shift era doe :
  civil_from_era_doe era doe
  = ((civil_from_era_doe 0 doe).1.1 + era * 400,
     (civil_from_era_doe 0 doe).1.2, (civil_from_era_doe 0 doe).2).
Proof.
  unfold civil_from_era_doe. cbv zeta. simpl.
  destruct (_ <=? 2); f_equal; f_equal; lia.
Qed.

Lemma first_of_month y m :
  1 ≤ m ≤ 12 →
  JsDate.civil_from_days (JsDate.days_from_civil y m 1) = (y, m, 1).
Proof.
  intros Hm.
  set (y' := if m <=? 2 then y - 1 else y).
  set (era := y' / 400). set (yoe := y' - era * 400).
  assert (Hyoe : 0 ≤ yoe < 400) by (unfold yoe, era; Z.div_mod_to_equations; lia).
  pose proof (first_of_month_checked yoe m Hyoe Hm) as Hok.
  unfold first_of_month_ok in Hok. cbv zeta in Hok.
  apply andb_true_iff in Hok as [Hok Hcivil].
  apply andb_true_iff in Hok as [Hlo Hhi].
  apply Z.leb_le in Hlo. apply Z.ltb_lt in Hhi.
  apply bool_decide_eq_true in Hcivil.
  assert (Hdays : JsDate.days_from_civil y m 1
                  = era * 146097 + doe_from_civil yoe m 1 - 719468) by reflexivity.
  assert (Hera : (JsDate.days_from_civil y m 1 + 719468) / 146097 = era).
  { rewrite Hdays. symmetry. apply (Z.div_unique _ _ era (doe_from_civil yoe m 1)); lia. }
  assert (Hunfold : JsDate.civil_from_days (JsDate.days_from_civil y m 1)
            = civil_from_era_doe ((JsDate.days_from_civil y m 1 + 719468) / 146097)
                ((JsDate.days_from_civil y m 1 + 719468)
                 - (JsDate.days_from_civil y m 1 + 719468) / 146097 * 146097))
    by reflexivity.
  rewrite Hunfold, Hera.
  replace (JsDate.days_from_civil y m 1 + 719468 - era * 146097)
    with (doe_from_civil yoe m 1) by lia.
  rewrite civil_from_era_shift, Hcivil. simpl.
  do 2 f_equal. unfold yoe, y'. destruct (m <=? 2); lia.
Qed.

Lemma MakeDay_of_fields t :
  JsDate.MakeDay (JsDate.getFullYear t) (JsDate.getMonth t) (JsDate.getDate t) = t.
Proof.
  pose proof (civil_roundtrip t) as Hrt. pose proof (civil_ranges t) as [Hm Hd].
  unfold JsDate.MakeDay, JsDate.getFullYear, JsDate.getMonth, JsDate.getDate.
  replace (((JsDate.civil_from_days t).1.2 - 1) / 12) with 0
    by (Z.div_mod_to_equations; lia).
  replace (((JsDate.civil_from_days t).1.2 - 1) `mod` 12 + 1)
    with ((JsDate.civil_from_days t).1.2) by (Z.div_mod_to_equations; lia).
  rewrite Z.add_0_r. rewrite <- Hrt at 4.
  unfold JsDate.days_from_civil. cbv zeta. lia.
Qed.

Lemma setDate_shift t day :
  JsDate.setDate t day = t - JsDate.getDate t + day.
Proof.
  pose proof (MakeDay_of_fields t) as Hmake. unfold JsDate.setDate.
  unfold JsDate.MakeDay in *. lia.
Qed.

(** From the year 100 on the constructor takes the year as it is. *)
Lemma make_from_year_100 year monthIndex day :
  100 ≤ year → JsDate.make year monthIndex day = JsDate.MakeDay year monthIndex day.
Proof.
  intros Hyear. unfold JsDate.make. cbv zeta.
  replace (year <=? 99) with false by (symmetry; apply Z.leb_gt; lia).
  by rewrite andb_false_r.
Qed.

(** The day [getDateRangeForPeriod] calls [today] is the day of [now]. *)
Lemma today_is_now now :
  100 ≤ JsDate.getFullYear now →
  JsDate.make (JsDate.getFullYear now) (JsDate.getMonth now) (JsDate.getDate now) = now.
Proof. intros Hyear. rewrite make_from_year_100 by done. apply MakeDay_of_fields. Qed.

(** X7: with the clock at a valid date of the year 100 or later, the daily
    range is today to today, and the weekly range runs from the most
    recent Sunday (today itself on a Sunday, never more than six days
    back) to today, also across a month or year boundary. *)
Theorem weekly_range_from_sunday (now : Z) :
  100 ≤ JsDate.getFullYear now → now ≤ JsDate.maxDay →
  getDateRangeForPeriod now "daily"
    = <["date_to" := JStr (formatDate now)]>
        (<["date_from" := JStr (formatDate now)]> ∅)
  ∧ getDateRangeForPeriod now "weekly"
    = <["date_to" := JStr (formatDate now)]>
        (<["date_from" := JStr (formatDate (now - JsDate.getDay now))]> ∅)
  ∧ JsDate.getDay (now - JsDate.getDay now) = 0
  ∧ 0 ≤ JsDate.getDay now ≤ 6.
Proof.
  intros Hyear _. split; [|split].
  - unfold getDateRangeForPeriod. by rewrite today_is_now.
  - unfold getDateRangeForPeriod. rewrite today_is_now by done. cbv zeta.
    simpl String.eqb. cbv iota. rewrite setDate_shift.
    by replace (now - JsDate.getDate now + (JsDate.getDate now - JsDate.getDay now))
      with (now - JsDate.getDay now) by lia.
  - unfold JsDate.getDay. split; Z.div_mod_to_equations; lia.
Qed.

Lemma weekly_range_from_sunday_witness :
  100 ≤ JsDate.getFullYear Samples.aTuesday
  ∧ Samples.aTuesday ≤ JsDate.maxDay
  ∧ getDateRangeForPeriod Samples.aTuesday "weekly"
    = <["date_to" := JStr (formatDate Samples.aTuesday)]>
        (<["date_from" :=
             JStr (formatDate (Samples.aTuesday - JsDate.getDay Samples.aTuesday))]> ∅).
Proof.
  assert (Hyear : 100 ≤ JsDate.getFullYear Samples.aTuesday) by (vm_compute; discriminate).
  assert (Hmax : Samples.aTuesday ≤ JsDate.maxDay) by (vm_compute; discriminate).
  split; [exact Hyear|]. split; [exact Hmax|].
  apply (weekly_range_from_sunday Samples.aTuesday Hyear Hmax).
Defined.

Lemma formatDate_first_of_month y m :
  1 ≤ m ≤ 12 →
  formatDate (JsDate.days_from_civil y m 1)
  = pretty y +:+ "-" +:+ JsDate.padStart2 (pretty m) +:+ "-01".
Proof.
  intros Hm. unfold formatDate, JsDate.getFullYear, JsDate.getMonth, JsDate.getDate.
  rewrite (first_of_month y m Hm). simpl fst. simpl snd.
  by replace (m - 1 + 1) with m by lia.
Qed.

(** X8: with the clock at a valid date of the year 100 or later, the
    monthly range runs from the first day of the current month, written
    with the year and month of today and the day 01, to today. *)
Theorem monthly_range_from_first (now : Z) :
  100 ≤ JsDate.getFullYear now → now ≤ JsDate.maxDay →
  getDateRangeForPeriod now "monthly"
  = <["date_to" := JStr (formatDate now)]>
      (<["date_from" :=
           JStr (pretty (JsDate.getFullYear now) +:+ "-"
                 +:+ JsDate.padStart2 (pretty (JsDate.getMonth now + 1)) +:+ "-01")]> ∅).
Proof.
  intros Hyear _.
  unfold getDateRangeForPeriod. rewrite today_is_now by done. cbv zeta.
  simpl String.eqb. cbv iota.
  pose proof (civil_ranges now) as [Hm _].
  assert (Hstart : JsDate.make (JsDate.getFullYear now) (JsDate.getMonth now) 1
                   = JsDate.days_from_civil (JsDate.getFullYear now)
                       ((JsDate.civil_from_days now).1.2) 1).
  { rewrite make_from_year_100 by done. unfold JsDate.MakeDay, JsDate.getMonth.
    replace (((JsDate.civil_from_days now).1.2 - 1) / 12) with 0
      by (Z.div_mod_to_equations; lia).
    replace (((JsDate.civil_from_days now).1.2 - 1) `mod` 12 + 1)
      with ((JsDate.civil_from_days now).1.2) by (Z.div_mod_to_equations; lia).
    replace (1 - 1) with 0 by lia. by rewrite !Z.add_0_r. }
  rewrite Hstart, (formatDate_first_of_month _ _ Hm). unfold JsDate.getMonth.
  by replace ((JsDate.civil_from_days now).1.2 - 1 + 1)
    with ((JsDate.civil_from_days now).1.2) by lia.
Qed.

Lemma monthly_range_from_first_witness :
  100 ≤ JsDate.getFullYear Samples.aTuesday
  ∧ Samples.aTuesday ≤ JsDate.maxDay
  ∧ getDateRangeForPeriod Samples.aTuesday "monthly"
    = <["date_to" := JStr (formatDate Samples.aTuesday)]>
        (<["date_from" :=
             JStr (pretty (JsDate.getFullYear Samples.aTuesday) +:+ "-"
                   +:+ JsDate.padStart2 (pretty (JsDate.getMonth Samples.aTuesday + 1))
                   +:+ "-01")]> ∅).
Proof.
  assert (Hyear : 100 ≤ JsDate.getFullYear Samples.aTuesday) by (vm_compute; discriminate).
  assert (Hmax : Samples.aTuesday ≤ JsDate.maxDay) by (vm_compute; discriminate).
  split; [exact Hyear|]. split; [exact Hmax|].
  apply (monthly_range_from_first Samples.aTuesday Hyear Hmax).
Defined.

(* ===================================================================== *)
(** * From a dashboard card to the call logs page                         *)
(* ===================================================================== *)

Lemma formatDate_not_empty d : truthy (JStr (formatDate d)) = true.
Proof.
  simpl. apply negb_true_iff, String.eqb_neq. intros Hempty.
  apply (f_equal String.length) in Hempty. unfold formatDate in Hempty.
  rewrite !string_length_append in Hempty. simpl in Hempty. lia.
Qed.

Lemma period_dates now (p : Dashboard.Period) :
  ∃ d1 d2, getDateRangeForPeriod now (Dashboard.period_text p)
           = <["date_to" := JStr (formatDate d2)]>
               (<["date_from" := JStr (formatDate d1)]> ∅).
Proof. destruct p; unfold getDateRangeForPeriod; simpl; eauto. Qed.

Lemma handleCardClick_reads period callType :
  Dashboard.handleCardClick period callType !! "period"
    = Some (Dashboard.period_text period)
  ∧ Dashboard.handleCardClick period callType !! "call_type"
    = (if param_truthy callType then callType else None).
Proof.
  unfold Dashboard.handleCardClick. split; [apply lookup_insert_eq|].
  rewrite lookup_insert_ne by done.
  destruct callType as [c|]; [|done].
  destruct (param_truthy (Some c)); [apply lookup_insert_eq|done].
Qed.

Lemma applyFilters_dated adm s :
  truthy (get (pendingFilters s) "date_from") = true
  ∨ truthy (get (pendingFilters s) "date_to") = true →
  (applyFilters adm s).2 ≠ Some "Please select a date when using time filters".
Proof.
  intros Hdated. unfold applyFilters.
  assert (Hrule : (truthy (get (pendingFilters s) "time_from")
                   || truthy (get (pendingFilters s) "time_to"))
                  && negb (truthy (get (pendingFilters s) "date_from"))
                  && negb (truthy (get (pendingFilters s) "date_to")) = false).
  { destruct (truthy (get (pendingFilters s) "time_from")),
             (truthy (get (pendingFilters s) "time_to")),
             (truthy (get (pendingFilters s) "date_from")),
             (truthy (get (pendingFilters s) "date_to")); try done;
      by destruct Hdated. }
  rewrite Hrule.
  match goal with |- context [if ?c then (s, Some _) else _] => destruct c end;
    simpl; discriminate.
Qed.

(** X9: a click on a dashboard card opens the call logs page on page 1,
    filtered by the card's call type (the total card sets none) and by the
    two dates of the selected period; the editor is pre-filled with the
    same dates, so a time bound staged next is not turned down for a
    missing date. *)
Theorem dashboard_card_preset (now : Z) (adm : option Admin)
    (period : Dashboard.Period) (callType : option string) (s : State) :
  let opened := Dashboard.urlEffectOn now adm
                  (Dashboard.handleCardClick period callType) s in
  get (filters opened) "page" = JNum 1
  ∧ get (filters opened) "call_type"
    = (match callType with
       | Some c => if param_truthy callType then JStr c else JUndef
       | None => JUndef
       end)
  ∧ get (filters opened) "date_from" = get (getDateRangeForPeriod now
                                              (Dashboard.period_text period)) "date_from"
  ∧ get (filters opened) "date_to" = get (getDateRangeForPeriod now
                                            (Dashboard.period_text period)) "date_to"
  ∧ truthy (get (filters opened) "date_from") = true
  ∧ truthy (get (filters opened) "date_to") = true
  ∧ get (pendingFilters opened) "date_from" = get (filters opened) "date_from"
  ∧ get (pendingFilters opened) "date_to" = get (filters opened) "date_to"
  ∧ ∀ key value,
      key ≠ "date_from" → key ≠ "date_to" →
      (applyFilters adm (handleFilterChange key value opened)).2
      ≠ Some "Please select a date when using time filters".
Proof.
  intros opened.
  destruct (handleCardClick_reads period callType) as (Hperiod & Htype).
  assert (Hguard : param_truthy (Some (Dashboard.period_text period)) = true)
    by by destruct period.
  assert (Hopened : opened = applyUrlPreset now adm
                      (if param_truthy callType then callType else None)
                      (Some (Dashboard.period_text period)) s).
  { unfold opened, Dashboard.urlEffectOn, urlEffect. rewrite Hperiod, Htype, Hguard.
    by rewrite orb_true_r. }
  destruct (period_dates now period) as (d1 & d2 & Hrange).
  assert (Hfrom : get (getDateRangeForPeriod now (Dashboard.period_text period))
                    "date_from" = JStr (formatDate d1)).
  { rewrite Hrange. rewrite get_insert_ne by done. apply get_insert_eq. }
  assert (Hto : get (getDateRangeForPeriod now (Dashboard.period_text period))
                  "date_to" = JStr (formatDate d2)).
  { rewrite Hrange. apply get_insert_eq. }
  assert (Hf_from : get (filters opened) "date_from"
                    = get (getDateRangeForPeriod now (Dashboard.period_text period))
                        "date_from").
  { rewrite Hopened. unfold applyUrlPreset. rewrite Hguard. simpl.
    rewrite get_insert_ne by done. apply get_insert_eq. }
  assert (Hf_to : get (filters opened) "date_to"
                  = get (getDateRangeForPeriod now (Dashboard.period_text period))
                      "date_to").
  { rewrite Hopened. unfold applyUrlPreset. rewrite Hguard. simpl. apply get_insert_eq. }
  assert (Hp_from : get (pendingFilters opened) "date_from"
                    = get (filters opened) "date_from").
  { rewrite Hopened. unfold applyUrlPreset. simpl.
    rewrite get_insert_ne by done. apply get_insert_eq. }
  assert (Hp_to : get (pendingFilters opened) "date_to" = get (filters opened) "date_to").
  { rewrite Hopened. unfold applyUrlPreset. simpl. apply get_insert_eq. }
  split; [|split; [|split; [exact Hf_from|split; [exact Hf_to|]]]].
  - rewrite Hopened, applyUrlPreset_filters, get_spread_absent.
    + apply getInitialFilters_page.
    + by apply presetPartial_lookup.
  - rewrite Hopened. unfold applyUrlPreset. rewrite Hguard. simpl.
    rewrite !get_insert_ne by done.
    assert (Hbase : get (spread (getInitialFilters adm) ∅) "call_type" = JUndef).
    { rewrite get_spread_absent by apply lookup_empty. unfold getInitialFilters.
      destruct adm as [a|]; [|done].
      destruct (admin_role a), (assigned_nonempty a), (branch_truthy a); done. }
    destruct callType as [c|]; [|done].
    destruct (param_truthy (Some c)) eqn:Hc; [|done].
    rewrite Hc. apply get_insert_eq.
  - split; [by rewrite Hf_from, Hfrom, formatDate_not_empty|].
    split; [by rewrite Hf_to, Hto, formatDate_not_empty|].
    split; [exact Hp_from|split; [exact Hp_to|]].
    intros key value Hk1 Hk2. apply applyFilters_dated. left.
    assert (Hkeep : get (pendingFilters (handleFilterChange key value opened)) "date_from"
                    = get (pendingFilters opened) "date_from").
    { simpl. apply get_spread_absent. by apply lookup_singleton_ne. }
    by rewrite Hkeep, Hp_from, Hf_from, Hfrom, formatDate_not_empty.
Qed.

Lemma dashboard_card_preset_witness :
  let opened := Dashboard.urlEffectOn Samples.aTuesday (Some Samples.manager7)
                  (Dashboard.handleCardClick Dashboard.weekly (Some "missed"))
                  (initialState (Some Samples.manager7)) in
  get (filters opened) "call_type" = JStr "missed"
  ∧ (applyFilters (Some Samples.manager7)
       (handleFilterChange "time_from" (JStr "09:00") opened)).2
    ≠ Some "Please select a date when using time filters".
Proof.
  intros opened.
  destruct (dashboard_card_preset Samples.aTuesday (Some Samples.manager7)
              Dashboard.weekly (Some "missed") (initialState (Some Samples.manager7)))
    as (_ & Htype & _ & _ & _ & _ & _ & _ & Hdated).
  split; [exact Htype|]. apply Hdated; discriminate.
Defined.
(* ===================================================================== *)
(** * Session store, interceptors and route guards                        *)
(* ===================================================================== *)

Section Session.
Variable stringify : Admin → string.
Variable parse : string → option (option Admin).

(** X10: a login survives a page reload: after [setAuth] with a non-empty
    token, a fresh store that runs [initAuth] holds the same administrator
    and token and is authenticated, and the storage is left as it is.
    With an empty token nothing is restored. *)
Theorem session_survives_reload (a : Admin) (t : string) (w : AuthStore.World) :
  stringify a ≠ "" →
  parse (stringify a) = Some (Some a) →
  let stored := (AuthStore.setAuth stringify a t w).2 in
  (t ≠ "" →
     AuthStore.reload parse stored = (AuthStore.mkStore (Some a) (Some t) true, stored))
  ∧ (t = "" → AuthStore.reload parse stored = (AuthStore.initial, stored)).
Proof.
  intros Hadmin Hparse stored.
  assert (Ha : stored !! "admin" = Some (stringify a)).
  { unfold stored. simpl. rewrite lookup_insert_ne by done. apply lookup_insert_eq. }
  assert (Ht : stored !! "auth_token" = Some t).
  { unfold stored. simpl. apply lookup_insert_eq. }
  unfold AuthStore.reload, AuthStore.initAuth. simpl. rewrite Ha, Ht.
  apply String.eqb_neq in Hadmin. rewrite Hadmin. simpl. split.
  - intros Htoken. apply String.eqb_neq in Htoken. rewrite Htoken. simpl.
    by rewrite Hparse.
  - intros ->. done.
Qed.

(** X11: a reload finds no session when the administrator or the token is
    missing from the storage or stored as the empty text: the store stays
    logged out and the storage is not touched.  When both are there but the
    administrator text does not parse, both entries are removed. *)
Theorem reload_without_session (ls : gmap string string) :
  (ls !! "admin" = None ∨ ls !! "admin" = Some ""
   ∨ ls !! "auth_token" = None ∨ ls !! "auth_token" = Some "" →
   AuthStore.reload parse ls = (AuthStore.initial, ls))
  ∧ (∀ storedAdmin storedToken,
       ls !! "admin" = Some storedAdmin → ls !! "auth_token" = Some storedToken →
       storedAdmin ≠ "" → storedToken ≠ "" → parse storedAdmin = None →
       AuthStore.reload parse ls
       = (AuthStore.initial, delete "auth_token" (delete "admin" ls))
       ∧ AuthStore.reload parse (AuthStore.reload parse ls).2
         = (AuthStore.initial, delete "auth_token" (delete "admin" ls))).
Proof.
  unfold AuthStore.reload, AuthStore.initAuth. simpl. split.
  - intros [Ha|[Ha|[Ht|Ht]]].
    + by rewrite Ha.
    + rewrite Ha. by destruct (ls !! "auth_token").
    + rewrite Ht. by destruct (ls !! "admin").
    + rewrite Ht. destruct (ls !! "admin"); [|done]. simpl. by rewrite andb_false_r.
  - intros sa st Ha Ht Hsa Hst Hfail. rewrite Ha, Ht.
    apply String.eqb_neq in Hsa, Hst. rewrite Hsa, Hst. simpl. rewrite Hfail.
    split; [done|]. simpl.
    rewrite lookup_delete_ne by done. by rewrite lookup_delete_eq.
Qed.

Lemma coherent_step (Hcodec : ∀ a, is_Some (parse (stringify a)))
    (act : AuthStore.Action) (w : AuthStore.World) :
  AuthStore.coherent parse w →
  AuthStore.coherent parse (AuthStore.step stringify parse act w).
Proof.
  intros Hw. pose proof Hw as (Hflag & Hout & Htok).
  destruct act as [a t| |]; simpl.
  - unfold AuthStore.setAuth, AuthStore.coherent. simpl.
    split; [split; [eauto|done]|]. split; [discriminate|].
    intros t' [= <-]. split; [apply lookup_insert_eq|].
    exists (stringify a). split; [|apply Hcodec].
    rewrite lookup_insert_ne by done. apply lookup_insert_eq.
  - unfold AuthStore.logout, AuthStore.coherent. simpl.
    split; [split; [discriminate|by intros [? ?]]|]. split; [done|].
    by intros t' [=].
  - unfold AuthStore.initAuth.
    destruct (w.2 !! "admin") as [sa|] eqn:Ha; [|exact Hw].
    destruct (w.2 !! "auth_token") as [st|] eqn:Ht; [|exact Hw].
    destruct (_ && _); [|exact Hw].
    destruct (parse sa) as [parsed|] eqn:Hparse.
    + unfold AuthStore.coherent. simpl.
      split; [split; [eauto|done]|]. split; [discriminate|].
      intros t' [= <-]. split; [done|]. exists sa. by rewrite Hparse.
    + assert (Hnone : AuthStore.token w.1 = None).
      { destruct (AuthStore.token w.1) as [t'|] eqn:Ht'; [|done].
        destruct (Htok t' eq_refl) as (_ & sa' & Hsa' & Hok).
        assert (sa' = sa) as -> by congruence. rewrite Hparse in Hok.
        by destruct Hok. }
      unfold AuthStore.coherent. simpl.
      split; [exact Hflag|]. split; [exact Hout|].
      intros t' Ht'. congruence.
Qed.

(** X12: when every stored administrator text parses, then after any
    sequence of logins, logouts and [initAuth] runs, from a fresh store over
    any storage, the store is authenticated exactly when it holds a token,
    a logged-out store holds no administrator, and the token of the store
    is the stored token, so that requests carry it as bearer token. *)
Theorem store_matches_storage (Hcodec : ∀ a, is_Some (parse (stringify a)))
    (ls : gmap string string) (acts : list AuthStore.Action) :
  let w := AuthStore.run stringify parse acts (AuthStore.initial, ls) in
  AuthStore.coherent parse w
  ∧ ∀ t, AuthStore.token w.1 = Some t → t ≠ "" →
         Api.authorization w.2 = Some ("Bearer " +:+ t).
Proof.
  intros w.
  assert (Hcoh : AuthStore.coherent parse w).
  { unfold w. clear w.
    assert (Hstart : AuthStore.coherent parse (AuthStore.initial, ls)).
    { unfold AuthStore.coherent. simpl.
      split; [split; [discriminate|by intros [? ?]]|]. split; [done|].
      by intros t' [=]. }
    revert Hstart. generalize (AuthStore.initial, ls).
    induction acts as [|act acts IH]; intros w Hw; simpl; [done|].
    by apply IH, coherent_step. }
  split; [exact Hcoh|].
  intros t Ht Hne. destruct Hcoh as (_ & _ & Htok).
  destruct (Htok t Ht) as (Hstored & _).
  unfold Api.authorization. rewrite Hstored.
  apply String.eqb_neq in Hne. by rewrite Hne.
Qed.

End Session.

Lemma session_survives_reload_witness :
  AuthStore.reload SampleJson.parse
    (AuthStore.setAuth SampleJson.stringify Samples.trainee42 "token-1"
       (AuthStore.initial, ∅)).2
  = (AuthStore.mkStore (Some Samples.trainee42) (Some "token-1") true,
     (AuthStore.setAuth SampleJson.stringify Samples.trainee42 "token-1"
        (AuthStore.initial, ∅)).2).
Proof.
  apply (session_survives_reload SampleJson.stringify SampleJson.parse
           Samples.trainee42 "token-1" (AuthStore.initial, ∅));
    [discriminate | reflexivity | discriminate].
Defined.

Lemma reload_without_session_witness :
  AuthStore.reload SampleJson.parse
    (<["auth_token" := "token-1"]> (<["admin" := "{"]> ∅))
  = (AuthStore.initial, delete "auth_token" (delete "admin"
       (<["auth_token" := "token-1"]> (<["admin" := "{"]> ∅)))).
Proof.
  apply (proj2 (reload_without_session SampleJson.parse
                  (<["auth_token" := "token-1"]> (<["admin" := "{"]> ∅)))
           "{" "token-1"); [reflexivity | reflexivity | discriminate | discriminate
                           | reflexivity].
Defined.

Lemma store_matches_storage_witness :
  let w := AuthStore.run SampleJson.stringify SampleJson.parse_null
             [AuthStore.SetAuth Samples.manager7 "token-2"; AuthStore.InitAuth]
             (AuthStore.initial, ∅) in
  AuthStore.token w.1 = Some "token-2"
  ∧ Api.authorization w.2 = Some "Bearer token-2".
Proof.
  intros w. split; [reflexivity|].
  apply (proj2 (store_matches_storage SampleJson.stringify SampleJson.parse_null
                  (λ a, ex_intro _ None eq_refl) ∅
                  [AuthStore.SetAuth Samples.manager7 "token-2"; AuthStore.InitAuth])
           "token-2"); [reflexivity | discriminate].
Defined.
(** ** Leaving the session *)

Lemma logged_out_routes (st : AuthStore.Store) (path : string) :
  AuthStore.isAuthenticated st = false →
  path ∈ Routes.paths → path ≠ "/login" →
  Routes.App (AuthStore.authState st) path = Routes.Navigate "/login"
  ∧ Routes.AppLazy (AuthStore.authState st) path = Routes.Navigate "/login".
Proof.
  intros Hout Hpath Hlogin. unfold Routes.paths in Hpath.
  rewrite !elem_of_cons, elem_of_nil in Hpath.
  destruct st as [adm tok auth]. simpl in Hout. subst auth.
  destruct Hpath as [->|[->|[->|[->|[->|[->|[->|[->|[]]]]]]]]]; try done;
    split; reflexivity.
Qed.

(** X13: the sidebar logout ends the session whether or not the logout
    request succeeded: the store is logged out, both storage entries are
    gone, later requests carry no bearer token, a reload stays logged out,
    and every page route leads to the login page.  Only the success toast
    depends on the request. *)
Theorem logout_always_ends_session (parse : string → option (option Admin))
    (apiOk : bool) (w : AuthStore.World) :
  let after := (AuthStore.handleLogout apiOk w).1 in
  after.1 = AuthStore.initial
  ∧ after.2 !! "admin" = None ∧ after.2 !! "auth_token" = None
  ∧ Api.authorization after.2 = None
  ∧ AuthStore.reload parse after.2 = (AuthStore.initial, after.2)
  ∧ (∀ path, path ∈ Routes.paths → path ≠ "/login" →
       Routes.App (AuthStore.authState after.1) path = Routes.Navigate "/login"
       ∧ Routes.AppLazy (AuthStore.authState after.1) path = Routes.Navigate "/login")
  ∧ ((AuthStore.handleLogout apiOk w).2 = Some "Logged out successfully"
     ↔ apiOk = true).
Proof.
  intros after.
  assert (Hafter : after = AuthStore.logout w) by (unfold after; by destruct apiOk).
  assert (Ha : after.2 !! "admin" = None).
  { rewrite Hafter. simpl. rewrite lookup_delete_ne by done. apply lookup_delete_eq. }
  assert (Ht : after.2 !! "auth_token" = None).
  { rewrite Hafter. simpl. apply lookup_delete_eq. }
  split; [by rewrite Hafter|]. split; [exact Ha|]. split; [exact Ht|].
  split; [unfold Api.authorization; by rewrite Ht|].
  split; [unfold AuthStore.reload, AuthStore.initAuth; simpl; by rewrite Ha|].
  split.
  - intros path Hpath Hlogin. apply logged_out_routes; [by rewrite Hafter|done|done].
  - destruct apiOk; simpl; split; done.
Qed.

Lemma logout_always_ends_session_witness :
  let w := AuthStore.setAuth SampleJson.stringify Samples.trainee42 "token-1"
             (AuthStore.initial, ∅) in
  Routes.AppLazy (AuthStore.authState w.1) "/call-logs"
    = Routes.Children Routes.CallLogsPage
  ∧ Routes.AppLazy (AuthStore.authState (AuthStore.handleLogout false w).1.1)
      "/call-logs" = Routes.Navigate "/login".
Proof.
  intros w. split; [reflexivity|].
  destruct (logout_always_ends_session SampleJson.parse false w)
    as (_ & _ & _ & _ & _ & Hroutes & _).
  apply Hroutes; [|discriminate].
  apply (bool_decide_unpack _). vm_compute. exact I.
Defined.

(** X14: an error response with status 401 or 403 removes the stored
    session and sends the browser to the login page, after which the page
    loads logged out and requests carry no bearer token; any other error,
    with or without a response, leaves the storage alone and sends the
    browser nowhere. *)
Theorem unauthorized_response_clears_session
    (parse : string → option (option Admin))
    (status : option Z) (ls : gmap string string) :
  (status = Some 401 ∨ status = Some 403 →
     (Api.onResponseError status ls).2 = Some "/login"
     ∧ Api.authorization (Api.onResponseError status ls).1 = None
     ∧ AuthStore.reload parse (Api.onResponseError status ls).1
       = (AuthStore.initial, (Api.onResponseError status ls).1))
  ∧ (status ≠ Some 401 → status ≠ Some 403 →
       Api.onResponseError status ls = (ls, None)).
Proof.
  unfold Api.onResponseError. split.
  - intros Hstatus.
    assert (Hcond : bool_decide (status = Some 401) || bool_decide (status = Some 403)
                    = true).
    { destruct Hstatus as [-> | ->]; done. }
    rewrite Hcond. simpl.
    assert (Ht : delete "admin" (delete "auth_token" ls) !! "auth_token" = None).
    { rewrite lookup_delete_ne by done. apply lookup_delete_eq. }
    assert (Ha : delete "admin" (delete "auth_token" ls) !! "admin" = None)
      by apply lookup_delete_eq.
    split; [done|]. split.
    + unfold Api.authorization. by rewrite Ht.
    + unfold AuthStore.reload, AuthStore.initAuth. simpl. by rewrite Ha.
  - intros H401 H403.
    rewrite (bool_decide_eq_false_2 _ H401), (bool_decide_eq_false_2 _ H403). done.
Qed.

Lemma unauthorized_response_clears_session_witness :
  let ls := (AuthStore.setAuth SampleJson.stringify Samples.trainee42 "token-1"
               (AuthStore.initial, ∅)).2 in
  Api.authorization ls = Some "Bearer token-1"
  ∧ Api.authorization (Api.onResponseError (Some 401) ls).1 = None
  ∧ Api.onResponseError (Some 500) ls = (ls, None).
Proof.
  intros ls. split; [reflexivity|].
  destruct (unauthorized_response_clears_session SampleJson.parse (Some 401) ls)
    as (Hclear & _).
  destruct (unauthorized_response_clears_session SampleJson.parse (Some 500) ls)
    as (_ & Hkeep).
  split; [by apply Hclear; left|]. apply Hkeep; discriminate.
Defined.

(** ** Sidebar and routes *)

(** X15: in the route table that guards pages by role, the link of a
    sidebar entry renders the page of that entry (Dashboard for Dashboard,
    the users page for App Users, and so on) exactly when the sidebar
    shows the entry to the authenticated administrator, and redirects to
    the dashboard when the entry is hidden: no shown entry is a dead link
    and no hidden entry has an open route.  In the other route table the
    link renders the entry's page for every authenticated role, shown or
    not. *)
Theorem sidebar_agrees_with_guarded_routes (a : Admin) (item : Sidebar.NavItem) :
  item ∈ (Sidebar.allNavItems ++ Sidebar.allAdminNavItems)%list →
  ∃ p,
    (Sidebar.label item, p)
      ∈ [("Dashboard", Routes.Dashboard); ("Call Logs", Routes.CallLogsPage);
         ("Devices", Routes.Devices); ("Branches", Routes.Branches);
         ("App Users", Routes.Users); ("Admins", Routes.Admins);
         ("Login Activity", Routes.LoginActivities)]
    ∧ (Sidebar.showItem (Some (admin_role a)) item = true
       ↔ Routes.AppLazy (mkAuth (Some a) true) (Sidebar.to item) = Routes.Children p)
    ∧ (Sidebar.showItem (Some (admin_role a)) item = false
       → Routes.AppLazy (mkAuth (Some a) true) (Sidebar.to item)
         = Routes.Navigate "/dashboard")
    ∧ Routes.App (mkAuth (Some a) true) (Sidebar.to item) = Routes.Children p.
Proof.
  intros Hitem. unfold Sidebar.allNavItems, Sidebar.allAdminNavItems in Hitem.
  simpl in Hitem. rewrite !elem_of_cons, elem_of_nil in Hitem.
  destruct a as [i r br asg].
  destruct Hitem as [->|[->|[->|[->|[->|[->|[->|[]]]]]]]];
    [exists Routes.Dashboard|exists Routes.CallLogsPage|exists Routes.Devices
    |exists Routes.Branches|exists Routes.Users|exists Routes.Admins
    |exists Routes.LoginActivities];
    (split; [apply (bool_decide_unpack _); vm_compute; exact I|]);
    destruct r;
    (split; [split; intros H; first [reflexivity|discriminate H]|]);
    (split; [intros H; first [reflexivity|discriminate H]|reflexivity]).
Qed.

Lemma sidebar_agrees_with_guarded_routes_witness :
  Sidebar.mkNavItem "/admins" "Admins" (Some [super_admin])
    ∈ (Sidebar.allNavItems ++ Sidebar.allAdminNavItems)%list
  ∧ ∃ p,
      (Sidebar.label (Sidebar.mkNavItem "/admins" "Admins" (Some [super_admin])), p)
        ∈ [("Dashboard", Routes.Dashboard); ("Call Logs", Routes.CallLogsPage);
           ("Devices", Routes.Devices); ("Branches", Routes.Branches);
           ("App Users", Routes.Users); ("Admins", Routes.Admins);
           ("Login Activity", Routes.LoginActivities)]
      ∧ Routes.AppLazy (mkAuth (Some Samples.trainee42) true) "/admins"
        = Routes.Navigate "/dashboard"
      ∧ Routes.App (mkAuth (Some Samples.trainee42) true) "/admins"
        = Routes.Children p.
Proof.
  assert (Hitem : Sidebar.mkNavItem "/admins" "Admins" (Some [super_admin])
                  ∈ (Sidebar.allNavItems ++ Sidebar.allAdminNavItems)%list).
  { apply (bool_decide_unpack _). vm_compute. exact I. }
  split; [exact Hitem|].
  destruct (sidebar_agrees_with_guarded_routes Samples.trainee42 _ Hitem)
    as (p & Hpage & _ & Hhidden & Heager).
  exists p. split; [exact Hpage|]. split; [by apply Hhidden|exact Heager].
Defined.

(** X16: in both route tables a visitor who is not authenticated is shown
    no page but the login page, and an authenticated one is never shown the
    login page. *)
Theorem guards_separate_login (auth : AuthState) (path : string) (p : Routes.Page) :
  (Routes.App auth path = Routes.Children p ∨ Routes.AppLazy auth path = Routes.Children p) →
  (isAuthenticated auth = false → p = Routes.Login)
  ∧ (isAuthenticated auth = true → p ≠ Routes.Login).
Proof.
  unfold Routes.App, Routes.AppLazy, Routes.ProtectedRoute, Routes.RoleProtectedRoute,
    Routes.PublicRoute.
  intros Hshown.
  destruct (isAuthenticated auth); simpl in Hshown;
    (split; [intros Hout|intros Hin]; try discriminate);
    destruct Hshown as [Hshown|Hshown];
    repeat match type of Hshown with
           | context [Routes.matchPath ?q path] => destruct (Routes.matchPath q path)
           | context [match admin auth with _ => _ end] => destruct (admin auth)
           | context [if ?c then _ else _] => destruct c
           end;
    try discriminate; by injection Hshown as <-.
Qed.

Lemma guards_separate_login_witness :
  Routes.App (mkAuth None false) "/login" = Routes.Children Routes.Login
  ∧ Routes.Login = Routes.Login.
Proof.
  split; [reflexivity|].
  apply (proj1 (guards_separate_login (mkAuth None false) "/login" Routes.Login
                  (or_introl eq_refl))).
  reflexivity.
Defined.
(* ===================================================================== *)
(** * Assigning users to a trainee                                        *)
(* ===================================================================== *)

Import AssignUsers.
Local Open Scope list_scope.

Lemma indexOf_from_app_notin (pre l : list Z) x i :
  x ∉ pre →
  indexOf_from (pre ++ l) x i = indexOf_from l x (i + Z.of_nat (length pre)).
Proof.
  revert i. induction pre as [|y pre IH]; intros i Hnot; simpl.
  - f_equal. lia.
  - apply not_elem_of_cons in Hnot as [Hne Hnot].
    destruct (Z.eqb_spec y x) as [->|_]; [done|].
    rewrite IH by done. f_equal. lia.
Qed.

Lemma indexOf_from_app_in (pre l : list Z) x i :
  x ∈ pre → i ≤ indexOf_from (pre ++ l) x i < i + Z.of_nat (length pre).
Proof.
  revert i. induction pre as [|y pre IH]; intros i Hin; simpl.
  - by apply elem_of_nil in Hin.
  - destruct (Z.eqb_spec y x) as [->|Hne]; [lia|].
    apply elem_of_cons in Hin as [->|Hin]; [done|].
    specialize (IH (i + 1) Hin). lia.
Qed.

(** An element is its own first occurrence exactly when nothing before it
    equals it. *)
Lemma first_occurrence (pre rest : list Z) x :
  (indexOf (pre ++ x :: rest) x =? Z.of_nat (length pre)) = bool_decide (x ∉ pre).
Proof.
  unfold indexOf. destruct (decide (x ∈ pre)) as [Hin|Hnot].
  - rewrite (bool_decide_eq_false_2 (x ∉ pre)) by auto.
    pose proof (indexOf_from_app_in pre (x :: rest) x 0 Hin). apply Z.eqb_neq. lia.
  - rewrite (bool_decide_eq_true_2 (x ∉ pre)) by done.
    rewrite indexOf_from_app_notin by done. simpl. rewrite Z.eqb_refl.
    apply Z.eqb_eq. lia.
Qed.

Lemma filter_from_first (combined suf pre : list Z) :
  combined = pre ++ suf →
  let kept := filter_from (λ id index, indexOf combined id =? index) suf
                (Z.of_nat (length pre)) in
  (∀ x, x ∈ kept ↔ x ∈ suf ∧ x ∉ pre) ∧ NoDup kept.
Proof.
  revert pre. induction suf as [|x suf IH]; intros pre Hcombined; simpl.
  - split; [|constructor]. intros x. rewrite elem_of_nil. tauto.
  - assert (Hnext : combined = (pre ++ [x]) ++ suf) by by rewrite <- app_assoc.
    destruct (IH (pre ++ [x]) Hnext) as (Hmem & Hnodup).
    rewrite length_app in Hmem, Hnodup. simpl in Hmem, Hnodup.
    replace (Z.of_nat (length pre + 1)) with (Z.of_nat (length pre) + 1)
      in Hmem, Hnodup by lia.
    assert (Hfirst : (indexOf combined x =? Z.of_nat (length pre))
                     = bool_decide (x ∉ pre))
      by (rewrite Hcombined; apply first_occurrence).
    rewrite Hfirst.
    destruct (decide (x ∈ pre)) as [Hin|Hnot].
    + rewrite (bool_decide_eq_false_2 (x ∉ pre)) by auto.
      split; [|exact Hnodup]. intros y. rewrite Hmem, elem_of_cons, not_elem_of_app.
      rewrite list_elem_of_singleton. split.
      * intros (Hy & Hpre & Hne). auto.
      * intros ([->|Hy] & Hpre); [done|]. repeat split; [done|done|].
        intros ->. done.
    + rewrite (bool_decide_eq_true_2 (x ∉ pre)) by done. split.
      * intros y. rewrite elem_of_cons, Hmem, elem_of_cons, not_elem_of_app.
        rewrite list_elem_of_singleton. split.
        -- intros [->|(Hy & Hpre & Hne)]; auto.
        -- intros ([->|Hy] & Hpre); [by left|].
           destruct (decide (y = x)) as [->|Hne]; [by left|]. right. auto.
      * constructor; [|exact Hnodup]. rewrite Hmem, not_elem_of_app.
        rewrite list_elem_of_singleton. tauto.
Qed.

Lemma filter_from_keeps (combined a rest pre : list Z) :
  combined = pre ++ a ++ rest → NoDup (pre ++ a) →
  filter_from (λ id index, indexOf combined id =? index) (a ++ rest)
    (Z.of_nat (length pre))
  = a ++ filter_from (λ id index, indexOf combined id =? index) rest
           (Z.of_nat (length (pre ++ a))).
Proof.
  revert pre. induction a as [|x a IH]; intros pre Hcombined Hnodup; simpl.
  - by rewrite app_nil_r.
  - assert (Hnot : x ∉ pre).
    { apply NoDup_app in Hnodup as (_ & Hdisj & _). intros Hin.
      apply (Hdisj x Hin). apply list_elem_of_here. }
    assert (Hfirst : (indexOf combined x =? Z.of_nat (length pre))
                     = bool_decide (x ∉ pre))
      by (rewrite Hcombined; apply first_occurrence).
    rewrite Hfirst.
    rewrite (bool_decide_eq_true_2 (x ∉ pre)) by done. f_equal.
    assert (Hnext : combined = (pre ++ [x]) ++ a ++ rest)
      by (rewrite <- app_assoc; done).
    assert (Hnodup' : NoDup ((pre ++ [x]) ++ a)) by (rewrite <- app_assoc; done).
    specialize (IH (pre ++ [x]) Hnext Hnodup').
    rewrite length_app in IH. simpl in IH.
    replace (Z.of_nat (length pre + 1)) with (Z.of_nat (length pre) + 1) in IH by lia.
    rewrite IH. do 2 f_equal. rewrite <- app_assoc. done.
Qed.

(** [uniqueIds] keeps the first occurrence of every id. *)
Lemma uniqueIds_spec (l : list Z) :
  (∀ x, x ∈ uniqueIds l ↔ x ∈ l) ∧ NoDup (uniqueIds l).
Proof.
  destruct (filter_from_first l l [] eq_refl) as (Hmem & Hnodup).
  split; [|exact Hnodup]. intros x. unfold uniqueIds. rewrite (Hmem x).
  rewrite elem_of_nil. tauto.
Qed.

Lemma uniqueIds_prefix (selected ids : list Z) :
  NoDup selected →
  ∃ added, uniqueIds (selected ++ ids) = selected ++ added
           ∧ (∀ x, x ∈ added ↔ x ∈ ids ∧ x ∉ selected) ∧ NoDup added.
Proof.
  intros Hnodup.
  pose proof (filter_from_keeps (selected ++ ids) selected ids [] eq_refl Hnodup) as Hkeep.
  destruct (filter_from_first (selected ++ ids) ids selected eq_refl) as (Hmem & Hnd).
  eexists. split; [exact Hkeep|]. split; [exact Hmem|exact Hnd].
Qed.

Lemma includes_forallb (selected ids : list Z) :
  forallb (λ id, includes selected id) ids = true ↔ ∀ x, x ∈ ids → x ∈ selected.
Proof.
  rewrite forallb_forall. unfold includes. split.
  - intros H x Hx. apply list_elem_of_In in Hx.
    specialize (H x Hx). by apply bool_decide_eq_true in H.
  - intros H x Hx. apply list_elem_of_In in Hx.
    apply bool_decide_eq_true. by apply H.
Qed.

Lemma selectAllLabel_cases (filteredUsers : list User.t) (selected : list Z) :
  (selectAllLabel filteredUsers selected = "Deselect All"
   ↔ forallb (λ id, includes selected id) (map User.id filteredUsers) = true)
  ∧ (selectAllLabel filteredUsers selected = "Select All"
     ↔ forallb (λ id, includes selected id) (map User.id filteredUsers) = false).
Proof.
  unfold selectAllLabel.
  assert (Hmap : forallb (λ id, includes selected id) (map User.id filteredUsers)
                 = forallb (λ u, includes selected (User.id u)) filteredUsers).
  { induction filteredUsers as [|u l IH]; simpl; [done|]. by rewrite IH. }
  rewrite Hmap. destruct (forallb _ filteredUsers); split; split; done.
Qed.

(** X17: when the button reads "Select All", a click selects every listed
    user and keeps everything that was selected: the new selection has no
    duplicate, holds exactly the old and the listed ids, starts with the old
    selection in its old order when that had no duplicate, and the button
    then reads "Deselect All". *)
Theorem select_all_adds_listed (filteredUsers : list User.t) (selected : list Z) :
  selectAllLabel filteredUsers selected = "Select All" →
  let result := handleSelectAll filteredUsers selected in
  (∀ x, x ∈ result ↔ x ∈ selected ∨ x ∈ map User.id filteredUsers)
  ∧ NoDup result
  ∧ (NoDup selected → ∃ added, result = selected ++ added
                               ∧ ∀ x, x ∈ added → x ∉ selected)
  ∧ selectAllLabel filteredUsers result = "Deselect All".
Proof.
  intros Hlabel result.
  apply selectAllLabel_cases in Hlabel.
  assert (Hresult : result = uniqueIds (selected ++ map User.id filteredUsers)).
  { unfold result, handleSelectAll. cbv zeta. by rewrite Hlabel. }
  destruct (uniqueIds_spec (selected ++ map User.id filteredUsers)) as (Hmem & Hnodup).
  assert (Hall : ∀ x, x ∈ result ↔ x ∈ selected ∨ x ∈ map User.id filteredUsers).
  { intros x. by rewrite Hresult, Hmem, elem_of_app. }
  split; [exact Hall|]. split; [by rewrite Hresult|]. split.
  - intros Hsel. destruct (uniqueIds_prefix selected (map User.id filteredUsers) Hsel)
      as (added & Hadded & Hmem' & _).
    exists added. split; [by rewrite Hresult|]. intros x Hx. by apply Hmem'.
  - apply selectAllLabel_cases, includes_forallb. intros x Hx. apply Hall. by right.
Qed.

Lemma select_all_adds_listed_witness :
  handleSelectAll [User.mk 5 (Some 1); User.mk 6 None] [6; 9] = [6; 9; 5]
  ∧ NoDup (handleSelectAll [User.mk 5 (Some 1); User.mk 6 None] [6; 9]).
Proof.
  split; [reflexivity|].
  apply (select_all_adds_listed [User.mk 5 (Some 1); User.mk 6 None] [6; 9]).
  reflexivity.
Defined.

(** X18: when the button reads "Deselect All", a click removes exactly the
    listed users from the selection and keeps the others in place; with
    users listed the button then reads "Select All", and with an empty
    list the click changes nothing. *)
Theorem deselect_all_removes_listed (filteredUsers : list User.t) (selected : list Z) :
  selectAllLabel filteredUsers selected = "Deselect All" →
  let result := handleSelectAll filteredUsers selected in
  (∀ x, x ∈ result ↔ x ∈ selected ∧ x ∉ map User.id filteredUsers)
  ∧ result = List.filter (λ id, negb (includes (map User.id filteredUsers) id)) selected
  ∧ (filteredUsers ≠ [] → selectAllLabel filteredUsers result = "Select All")
  ∧ (filteredUsers = [] → result = selected).
Proof.
  intros Hlabel result.
  apply selectAllLabel_cases in Hlabel.
  assert (Hresult : result
            = List.filter (λ id, negb (includes (map User.id filteredUsers) id)) selected).
  { unfold result, handleSelectAll. cbv zeta. by rewrite Hlabel. }
  assert (Hall : ∀ x, x ∈ result ↔ x ∈ selected ∧ x ∉ map User.id filteredUsers).
  { intros x. rewrite Hresult, list_elem_of_In, filter_In, <- list_elem_of_In.
    unfold includes. rewrite negb_true_iff, bool_decide_eq_false. tauto. }
  split; [exact Hall|]. split; [exact Hresult|]. split.
  - intros Hne. apply selectAllLabel_cases.
    destruct filteredUsers as [|u l]; [done|]. simpl.
    apply andb_false_iff. left. unfold includes. apply bool_decide_eq_false.
    intros Hin. apply Hall in Hin as [_ Hnot]. apply Hnot. simpl. apply list_elem_of_here.
  - intros ->. rewrite Hresult. clear.
    induction selected as [|y l IH]; [done|]. simpl. by f_equal.
Qed.

Lemma deselect_all_removes_listed_witness :
  handleSelectAll [User.mk 5 (Some 1); User.mk 6 None] [6; 9; 5] = [9].
Proof.
  apply (proj1 (proj2 (deselect_all_removes_listed
                         [User.mk 5 (Some 1); User.mk 6 None] [6; 9; 5] eq_refl))).
Defined.

Lemma filter_and_length {A : Type} (P Q : A → bool) (l : list A) :
  (length (List.filter (λ u, P u && Q u) l) ≤ length (List.filter P l))%nat
  ∧ (length (List.filter (λ u, P u && Q u) l) = length (List.filter P l)
     ↔ ∀ u, In u l → P u = true → Q u = true).
Proof.
  induction l as [|u l [IHle IHeq]]; simpl.
  - split; [lia|]. split; [by intros _ u []|done].
  - destruct (P u) eqn:HP, (Q u) eqn:HQ; simpl.
    + split; [lia|]. split.
      * intros Hlen u' [<-|Hin] HP'; [done|]. apply IHeq; [lia|done|done].
      * intros Hall. f_equal. apply IHeq. intros u' Hin. apply Hall. by right.
    + split; [lia|]. split; [lia|].
      intros Hall. specialize (Hall u (or_introl eq_refl) HP). congruence.
    + split; [lia|]. split.
      * intros Hlen u' [<-|Hin] HP'; [congruence|]. by apply IHeq.
      * intros Hall. apply IHeq. intros u' Hin. apply Hall. by right.
    + split; [lia|]. split.
      * intros Hlen u' [<-|Hin] HP'; [congruence|]. by apply IHeq.
      * intros Hall. apply IHeq. intros u' Hin. apply Hall. by right.
Qed.

Lemma branch_ids_all_selected (users : list User.t) (selected : list Z) (b : Z) :
  (∀ x, x ∈ map User.id
              (List.filter (λ u, bool_decide (User.branch_id u = Some b)) users)
        → x ∈ selected)
  ↔ ∀ u, In u users → bool_decide (User.branch_id u = Some b) = true →
         includes selected (User.id u) = true.
Proof.
  split.
  - intros Hall u Hin Hb. apply bool_decide_eq_true. apply Hall.
    apply list_elem_of_In, in_map, filter_In. done.
  - intros Hall x Hx. apply list_elem_of_In, in_map_iff in Hx as (u & <- & Hu).
    apply filter_In in Hu as [Hin Hb].
    specialize (Hall u Hin Hb). by apply bool_decide_eq_true in Hall.
Qed.

(** X19: the quick-select button of a branch is highlighted exactly when
    the branch has users and all of them are selected.  A click on a
    highlighted button removes exactly the branch's users from the
    selection; a click on a button that is not highlighted, for a branch
    with users, adds them without duplicates and highlights the button. *)
Theorem branch_quick_select (users : list User.t) (selected : list Z) (b : Z) :
  let branchUserIds :=
    map User.id (List.filter (λ u, bool_decide (User.branch_id u = Some b)) users) in
  let result := handleSelectByBranch users b selected in
  (branchHighlighted users selected b = true
   ↔ branchUserIds ≠ [] ∧ ∀ x, x ∈ branchUserIds → x ∈ selected)
  ∧ (branchHighlighted users selected b = true →
       ∀ x, x ∈ result ↔ x ∈ selected ∧ x ∉ branchUserIds)
  ∧ (branchHighlighted users selected b = false → branchUserIds ≠ [] →
       (∀ x, x ∈ result ↔ x ∈ selected ∨ x ∈ branchUserIds)
       ∧ NoDup result
       ∧ branchHighlighted users result b = true).
Proof.
  intros branchUserIds result.
  assert (Hhigh : ∀ sel, branchHighlighted users sel b = true
            ↔ branchUserIds ≠ [] ∧ ∀ x, x ∈ branchUserIds → x ∈ sel).
  { intros sel. unfold branchHighlighted, branchSelectedCount, branchUserCount.
    rewrite andb_true_iff, Nat.eqb_eq, Nat.ltb_lt.
    rewrite (proj2 (filter_and_length
               (λ u, bool_decide (User.branch_id u = Some b))
               (λ u, includes sel (User.id u)) users)).
    rewrite <- branch_ids_all_selected. fold branchUserIds.
    assert (Hne : (0 < length (List.filter
                     (λ u, bool_decide (User.branch_id u = Some b)) users))%nat
                  ↔ branchUserIds ≠ []).
    { unfold branchUserIds.
      destruct (List.filter _ users); simpl; split; try done; lia. }
    rewrite Hne. tauto. }
  assert (Hall : forallb (λ id, includes selected id) branchUserIds = true
                 ↔ ∀ x, x ∈ branchUserIds → x ∈ selected) by apply includes_forallb.
  split; [apply Hhigh|]. split.
  - intros Hon. apply Hhigh in Hon as [_ Hsel]. apply (proj2 Hall) in Hsel.
    unfold result, handleSelectByBranch. cbv zeta. fold branchUserIds. rewrite Hsel.
    intros x. rewrite list_elem_of_In, filter_In, <- list_elem_of_In.
    unfold includes. rewrite negb_true_iff, bool_decide_eq_false. tauto.
  - intros Hoff Hne.
    assert (Hnot : forallb (λ id, includes selected id) branchUserIds = false).
    { apply not_true_is_false. intros Hf. pose proof (proj1 Hall Hf) as Hsel.
      assert (branchHighlighted users selected b = true) by (apply Hhigh; done).
      congruence. }
    assert (Hresult : result = uniqueIds (selected ++ branchUserIds)).
    { unfold result, handleSelectByBranch. cbv zeta. fold branchUserIds.
      by rewrite Hnot. }
    destruct (uniqueIds_spec (selected ++ branchUserIds)) as (Hmem & Hnodup).
    assert (Hin : ∀ x, x ∈ result ↔ x ∈ selected ∨ x ∈ branchUserIds).
    { intros x. by rewrite Hresult, Hmem, elem_of_app. }
    split; [exact Hin|]. split; [by rewrite Hresult|].
    apply Hhigh. split; [done|]. intros x Hx. apply Hin. by right.
Qed.

Lemma branch_quick_select_witness :
  let users := [User.mk 5 (Some 1); User.mk 6 None; User.mk 7 (Some 1)] in
  branchHighlighted users [5] 1 = false
  ∧ branchHighlighted users (handleSelectByBranch users 1 [5]) 1 = true.
Proof.
  intros users. split; [reflexivity|].
  apply (proj2 (proj2 (branch_quick_select users [5] 1))); [reflexivity|discriminate].
Defined.

(** X20: ticking a user's box puts the user into the selection and
    unticking removes every occurrence; other users are not affected, and
    ticking then unticking a user who was not selected gives back the
    selection as it was. *)
Theorem user_checkbox (userId : Z) (selected : list Z) :
  userId ∈ onUserChecked true userId selected
  ∧ (userId ∉ onUserChecked false userId selected)
  ∧ (∀ checked x, x ≠ userId →
       (x ∈ onUserChecked checked userId selected ↔ x ∈ selected))
  ∧ (userId ∉ selected →
       onUserChecked false userId (onUserChecked true userId selected) = selected
       ∧ (NoDup selected → NoDup (onUserChecked true userId selected))).
Proof.
  assert (Hfilter : ∀ l x, x ∈ List.filter (λ id, negb (id =? userId)) l
                           ↔ x ∈ l ∧ x ≠ userId).
  { intros l x. rewrite list_elem_of_In, filter_In, <- list_elem_of_In.
    by rewrite negb_true_iff, Z.eqb_neq. }
  unfold onUserChecked. split; [|split; [|split]].
  - apply elem_of_app. right. apply list_elem_of_here.
  - rewrite Hfilter. tauto.
  - intros [] x Hne.
    + rewrite elem_of_app, list_elem_of_singleton. tauto.
    + rewrite Hfilter. tauto.
  - intros Hnot. split.
    + rewrite List.filter_app. simpl. rewrite Z.eqb_refl. simpl. rewrite app_nil_r.
      induction selected as [|y l IH]; [done|]. simpl.
      apply not_elem_of_cons in Hnot as [Hne Hnot].
      destruct (Z.eqb_spec y userId) as [->|_]; [done|]. simpl. f_equal. by apply IH.
    + intros Hnodup. apply NoDup_app. split; [done|]. split.
      * intros x Hx Hx'. apply list_elem_of_singleton in Hx'. by subst.
      * apply NoDup_singleton.
Qed.

Lemma user_checkbox_witness :
  onUserChecked false 8 (onUserChecked true 8 [6; 9]) = [6; 9].
Proof.
  apply (proj2 (proj2 (proj2 (user_checkbox 8 [6; 9])))).
  apply (bool_decide_unpack _). vm_compute. exact I.
Defined.
(* ===================================================================== *)
(** * Applying twice, and applying after a preset                         *)
(* ===================================================================== *)

Import Js ApplySteps.

Lemma applyFilters_steps adm s :
  applyFilters adm s
  = if timeWithoutDate (pendingFilters s)
    then (s, Some "Please select a date when using time filters")
    else if userRejected adm (pendingFilters s)
         then (s, Some "You can only view call logs for your assigned users")
         else (mkState (<["page" := JNum 1]>
                          (spread (filters s) (rolePending adm (pendingFilters s))))
                       (rolePending adm (pendingFilters s)) (search s), None).
Proof. reflexivity. Qed.

(** The role assignments only write [user_id] and [branch_id]. *)
Lemma rolePending_other adm (pending : JsObj) k :
  k ≠ "user_id" → k ≠ "branch_id" → rolePending adm pending !! k = pending !! k.
Proof.
  intros Hu Hb. unfold rolePending.
  assert (Hfirst : (if restricted adm && negb (truthy (get pending "user_id"))
                    then <["user_id" := first (availableUserIds adm)]> pending
                    else pending) !! k = pending !! k).
  { destruct (_ && _); [by rewrite lookup_insert_ne|done]. }
  destruct adm as [a|]; [|done].
  destruct (admin_role a), (branch_truthy a); try done.
  by rewrite lookup_insert_ne.
Qed.

Lemma restricted_trainee adm :
  restricted adm = true →
  ∃ a x, adm = Some a ∧ admin_role a = trainee
         ∧ first (availableUserIds adm) = JNum x
         ∧ includes (availableUserIds adm) (JNum x) = true.
Proof.
  unfold restricted. intros [Hrole Hne%bool_decide_eq_true]%andb_true_iff.
  apply role_is_true in Hrole as (a & -> & Hrole).
  destruct (availableUserIds (Some a)) as [|x l] eqn:Hav; [done|].
  exists a, x. repeat split; [done|]. simpl.
  apply bool_decide_eq_true, list_elem_of_here.
Qed.

Lemma insert_twice (m : JsObj) k v : <[k := v]> (<[k := v]> m) = <[k := v]> m.
Proof. apply insert_insert_eq. Qed.

Lemma rolePending_idempotent adm (pending : JsObj) :
  userRejected adm pending = false →
  timeWithoutDate (rolePending adm pending) = timeWithoutDate pending
  ∧ userRejected adm (rolePending adm pending) = false
  ∧ rolePending adm (rolePending adm pending) = rolePending adm pending.
Proof.
  intros Hok.
  assert (Hget : ∀ k, k ≠ "user_id" → k ≠ "branch_id" →
                      get (rolePending adm pending) k = get pending k).
  { intros k Hu Hb. unfold get. by rewrite rolePending_other. }
  split; [unfold timeWithoutDate; by rewrite !Hget|].
  destruct (restricted adm) eqn:Hr.
  - destruct (restricted_trainee adm Hr) as (a & x & Hadm & Hrole & Hx & Hin).
    unfold userRejected in *. unfold rolePending.
    rewrite Hr in *. rewrite !andb_true_l in *.
    remember (availableUserIds adm) as av eqn:Hav. clear Hav.
    subst adm. rewrite Hrole. clear Hr Hget.
    destruct (truthy (get pending "user_id")) eqn:Htruthy.
    + rewrite !andb_true_l in *. cbn [negb].
      rewrite Htruthy, Hok. by cbn [negb].
    + cbn [negb]. rewrite Hx, get_insert_eq, Hin.
      destruct (truthy (JNum x)); cbn [negb andb]; [done|].
      split; [done|]. apply insert_twice.
  - split; [unfold userRejected; by rewrite Hr|].
    unfold rolePending. rewrite Hr. simpl.
    destruct adm as [a|]; [|done].
    destruct (admin_role a), (branch_truthy a); try done.
    apply insert_twice.
Qed.

(** X21: Pressing Search a second time changes nothing: when [applyFilters] is
    accepted, applying again from the state it produced is accepted as well
    and returns that same state (applied filters, staged filters and search
    text). *)
Theorem apply_twice adm s s1 :
  applyFilters adm s = (s1, None) →
  applyFilters adm s1 = (s1, None).
Proof.
  rewrite !applyFilters_steps.
  destruct (timeWithoutDate (pendingFilters s)) eqn:Htime; [done|].
  destruct (userRejected adm (pendingFilters s)) eqn:Huser; [done|].
  intros [= <-]. simpl.
  destruct (rolePending_idempotent adm (pendingFilters s) Huser)
    as (-> & -> & ->).
  rewrite Htime. do 2 f_equal.
  apply map_eq. intros k. unfold spread.
  destruct (decide (k = "page")) as [->|Hk].
  - by rewrite !lookup_insert_eq.
  - rewrite !lookup_insert_ne by done. rewrite !lookup_union.
    rewrite lookup_insert_ne by done. rewrite lookup_union.
    by destruct (rolePending adm (pendingFilters s) !! k), (filters s !! k).
Qed.

Lemma apply_twice_witness :
  applyFilters (Some Samples.trainee42)
    (handleFilterChange "call_type" (JStr "incoming")
       (initialState (Some Samples.trainee42)))
  = ((applyFilters (Some Samples.trainee42)
        (handleFilterChange "call_type" (JStr "incoming")
           (initialState (Some Samples.trainee42)))).1, None)
  ∧ applyFilters (Some Samples.trainee42)
      (applyFilters (Some Samples.trainee42)
         (handleFilterChange "call_type" (JStr "incoming")
            (initialState (Some Samples.trainee42)))).1
    = ((applyFilters (Some Samples.trainee42)
          (handleFilterChange "call_type" (JStr "incoming")
             (initialState (Some Samples.trainee42)))).1, None).
Proof.
  split; [reflexivity|].
  apply (apply_twice (Some Samples.trainee42)
           (handleFilterChange "call_type" (JStr "incoming")
              (initialState (Some Samples.trainee42)))).
  reflexivity.
Defined.

(** Two applied sets that read the same under every key send the same
    request. *)
Lemma queryParams_ext (f g : JsObj) :
  (∀ k, get f k = get g k) → queryParams f = queryParams g.
Proof.
  intros H. apply map_eq. intros k. rewrite !queryParams_lookup, H.
  case_decide as Hk; [done|].
  rewrite (get_defined g k _ eq_refl Hk).
  by rewrite (get_defined f k _ (H k) Hk).
Qed.

(** A staged set is in step with the applied one when each staged key
    reads the same in the applied set. *)
Lemma in_step_insert (f m : JsObj) k0 v0 :
  (∀ k v, m !! k = Some v → get f k = v) → get f k0 = v0 →
  ∀ k v, <[k0 := v0]> m !! k = Some v → get f k = v.
Proof.
  intros Hm H0 k v. destruct (decide (k0 = k)) as [<-|Hk].
  - rewrite lookup_insert_eq. congruence.
  - rewrite lookup_insert_ne by done. apply Hm.
Qed.

Lemma apply_in_step adm (f pend : JsObj) q :
  get f "page" = JNum 1 →
  (∀ k v, pend !! k = Some v → get f k = v) →
  timeWithoutDate pend = false →
  (restricted adm = true → get f "user_id" = first (availableUserIds adm)) →
  (∀ a b, adm = Some a → admin_role a = manager → branch_truthy a = Some b →
          get f "branch_id" = JNum b) →
  ∃ s1, applyFilters adm (mkState f pend q) = (s1, None)
        ∧ search s1 = q
        ∧ ∀ k, get (filters s1) k = get f k.
Proof.
  intros Hpage Hstep Htime Huser Hbranch.
  rewrite applyFilters_steps. simpl. rewrite Htime.
  assert (Hok : userRejected adm pend = false).
  { unfold userRejected. destruct (restricted adm) eqn:Hr; [|done].
    destruct (restricted_trainee adm Hr) as (a & x & _ & _ & Hx & Hin).
    rewrite andb_true_l.
    destruct (truthy (get pend "user_id")) eqn:Ht; [|done].
    assert (Hsame : get pend "user_id" = JNum x).
    { rewrite <- Hx, <- (Huser eq_refl). unfold get at 1.
      destruct (pend !! "user_id") as [v|] eqn:Hp.
      - simpl. symmetry. by apply Hstep.
      - unfold get in Ht. by rewrite Hp in Ht. }
    by rewrite Hsame, Hin. }
  rewrite Hok. eexists. split; [reflexivity|]. split; [reflexivity|].
  simpl. intros k.
  assert (Hrole : ∀ k v, rolePending adm pend !! k = Some v → get f k = v).
  { unfold rolePending.
    assert (Hinner : ∀ k v,
      (if restricted adm && negb (truthy (get pend "user_id"))
       then <["user_id" := first (availableUserIds adm)]> pend
       else pend) !! k = Some v → get f k = v).
    { destruct (restricted adm) eqn:Hr; [|done].
      destruct (negb _); [|done]. cbn [andb].
      apply in_step_insert; auto. }
    destruct adm as [a|]; [|done].
    destruct (admin_role a) eqn:Hra; try done.
    destruct (branch_truthy a) as [b|] eqn:Hb; [|done].
    apply in_step_insert; eauto. }
  destruct (decide (k = "page")) as [->|Hk].
  - by rewrite get_insert_eq.
  - rewrite get_insert_ne by done.
    destruct (rolePending adm pend !! k) as [v|] eqn:Hv.
    + rewrite (get_spread_own _ _ _ _ Hv). symmetry. by apply Hrole.
    + by apply get_spread_absent.
Qed.

Lemma getInitialFilters_user adm :
  restricted adm = true →
  get (getInitialFilters adm) "user_id" = first (availableUserIds adm).
Proof.
  intros Hr.
  destruct (restricted_trainee adm Hr) as (a & x & -> & Hrole & _ & _).
  unfold restricted in Hr. apply andb_true_iff in Hr as [_ Hne%bool_decide_eq_true].
  destruct (assigned_nonempty a) as [ids|] eqn:Hids.
  - destruct (assigned_nonempty_available a ids Hrole Hids) as (-> & _).
    apply (getInitialFilters_forced a "user_id" ids).
    unfold forcedScope. by rewrite Hrole, Hids.
  - by rewrite (assigned_empty_available a Hrole Hids) in Hne.
Qed.

(** X22: After a URL preset (a dashboard card), pressing Search without touching
    a control is accepted and sends the same request: the resolved query
    of the applied filters is the one the preset produced, and the search
    text is kept. *)
Theorem apply_after_preset now adm callType period s :
  param_truthy callType || param_truthy period = true →
  ∃ s1, applyFilters adm (urlEffect now adm callType period s) = (s1, None)
        ∧ search s1 = search s
        ∧ queryParams (filters s1)
          = queryParams (filters (urlEffect now adm callType period s)).
Proof.
  intros Hurl. unfold urlEffect. rewrite Hurl.
  set (opened := applyUrlPreset now adm callType period s).
  assert (Hopened : opened
    = mkState (filters opened)
        (<["date_to" := get (filters opened) "date_to"]>
           (<["date_from" := get (filters opened) "date_from"]>
              (<["call_type" := get (filters opened) "call_type"]> ∅)))
        (search s)) by reflexivity.
  assert (Hbase : ∀ k, k ≠ "call_type" → k ≠ "date_from" → k ≠ "date_to" →
                       get (filters opened) k = get (getInitialFilters adm) k).
  { intros k H1 H2 H3. unfold opened. rewrite applyUrlPreset_filters.
    apply get_spread_absent. by apply presetPartial_lookup. }
  destruct (apply_in_step adm (filters opened)
              (<["date_to" := get (filters opened) "date_to"]>
                 (<["date_from" := get (filters opened) "date_from"]>
                    (<["call_type" := get (filters opened) "call_type"]> ∅)))
              (search s)) as (s1 & Happly & Hsearch & Hget).
  - rewrite Hbase by done. apply getInitialFilters_page.
  - repeat (apply in_step_insert; [|reflexivity]). intros k v.
    by rewrite lookup_empty.
  - reflexivity.
  - intros Hr. rewrite Hbase by done. by apply getInitialFilters_user.
  - intros a b -> Hrole Hb. rewrite Hbase by done.
    destruct (getInitialFilters_forced a "branch_id" [b]) as [-> _]; [|done].
    unfold forcedScope. by rewrite Hrole, Hb.
  - exists s1. rewrite Hopened. split; [done|]. split; [done|].
    by apply queryParams_ext.
Qed.

Lemma apply_after_preset_witness :
  param_truthy (Some "incoming") || param_truthy (Some "weekly") = true
  ∧ ∃ s1,
      applyFilters (Some Samples.manager7)
        (urlEffect Samples.aTuesday (Some Samples.manager7)
           (Some "incoming") (Some "weekly")
           (initialState (Some Samples.manager7))) = (s1, None)
      ∧ search s1 = search (initialState (Some Samples.manager7))
      ∧ queryParams (filters s1)
        = queryParams
            (filters (urlEffect Samples.aTuesday (Some Samples.manager7)
                        (Some "incoming") (Some "weekly")
                        (initialState (Some Samples.manager7)))).
Proof.
  split; [reflexivity|].
  apply (apply_after_preset Samples.aTuesday (Some Samples.manager7)
           (Some "incoming") (Some "weekly")
           (initialState (Some Samples.manager7))).
  reflexivity.
Defined.

(** X23: After Clear Filters, pressing Search is accepted and sends the initial
    request of the signed-in admin, with an empty search text. *)
Theorem apply_after_clear adm s :
  ∃ s1, applyFilters adm (clearFilters adm s) = (s1, None)
        ∧ search s1 = ""
        ∧ queryParams (filters s1) = queryParams (getInitialFilters adm).
Proof.
  destruct (apply_in_step adm (getInitialFilters adm) ∅ "")
    as (s1 & Happly & Hsearch & Hget).
  - apply getInitialFilters_page.
  - intros k v. by rewrite lookup_empty.
  - reflexivity.
  - apply getInitialFilters_user.
  - intros a b -> Hrole Hb.
    destruct (getInitialFilters_forced a "branch_id" [b]) as [-> _]; [|done].
    unfold forcedScope. by rewrite Hrole, Hb.
  - exists s1. split; [exact Happly|]. split; [done|].
    by apply queryParams_ext.
Qed.

(** X24: The dashboard's duration text drops the seconds: for whole
    seconds from 0 to [MAX_SAFE_INTEGER] it shows the whole hours [h] and
    the whole minutes [m] below sixty with
    [3600 h + 60 m <= seconds < 3600 h + 60 m + 60], and leaves the hours
    out exactly when the duration is under an hour. *)
Theorem dashboard_duration_text seconds :
  0 ≤ seconds ≤ MAX_SAFE_INTEGER →
  ∃ h m, 0 ≤ h ∧ 0 ≤ m < 60
         ∧ 3600 * h + 60 * m ≤ seconds < 3600 * h + 60 * m + 60
         ∧ (h = 0 ↔ seconds < 3600)
         ∧ Dashboard.formatDuration seconds
           = if decide (h = 0) then pretty m +:+ "m"
             else pretty h +:+ "h " +:+ pretty m +:+ "m".
Proof.
  intros [Hs _]. exists (seconds / 3600), (Z.rem seconds 3600 / 60).
  rewrite Z.rem_mod_nonneg by lia.
  pose proof (Z.div_pos seconds 3600).
  repeat split; try (Z.div_mod_to_equations; lia).
  unfold Dashboard.formatDuration. rewrite Z.rem_mod_nonneg by lia.
  destruct (0 <? seconds / 3600) eqn:Hh.
  - apply Z.ltb_lt in Hh. by rewrite decide_False by lia.
  - apply Z.ltb_ge in Hh. by rewrite decide_True by lia.
Qed.

Lemma dashboard_duration_text_witness :
  0 ≤ 3725 ≤ MAX_SAFE_INTEGER
  ∧ ∃ h m, 0 ≤ h ∧ 0 ≤ m < 60
           ∧ 3600 * h + 60 * m ≤ 3725 < 3600 * h + 60 * m + 60
           ∧ (h = 0 ↔ 3725 < 3600)
           ∧ Dashboard.formatDuration 3725
             = if decide (h = 0) then pretty m +:+ "m"
               else pretty h +:+ "h " +:+ pretty m +:+ "m".
Proof.
  assert (Hs : 0 ≤ 3725 ≤ MAX_SAFE_INTEGER) by (vm_compute; split; discriminate).
  split; [exact Hs|]. apply (dashboard_duration_text 3725 Hs).
Defined.
